(** * The fintech-compliance tool server: upstream client and report rendering

    A shallow embedding of [src/lib/mcp/server.py]: the upstream client
    [make_api_request], the five tool functions ([analyze_transaction],
    [verify_customer_kyc], [analyze_communication], [get_regulatory_updates],
    [generate_compliance_report]) and the Python operations on parsed JSON
    that they rely on.

    Python values obtained from [response.json()] are dynamically typed, so
    the embedding keeps the dynamic checks: membership, subscription, [.get],
    iteration and truthiness are defined on every JSON value and raise the
    exception Python raises. *)

From Stdlib Require Import String Ascii List ZArith Bool Arith Lia.
From Stdlib Require Import Numbers.DecimalString.
Import ListNotations.
Open Scope list_scope.
Open Scope string_scope.

(** ** Text *)

(** The line feed, written [\n] in the source. *)
Definition LF : string := String "010"%char EmptyString.

(** The double quote character. *)
Definition DQUOTE : string := String "034"%char EmptyString.

(** The apostrophe. *)
Definition SQUOTE : string := "'".

(** [needle in hay] on two Python strings: the substring test. Strings are
    held as their UTF-8 bytes; a substring of code points is a substring of
    bytes and conversely, UTF-8 being self-synchronising. *)
Fixpoint contains (needle hay : string) : bool :=
  String.prefix needle hay ||
  match hay with
  | EmptyString => false
  | String _ rest => contains needle rest
  end.

(** The decimal text of an integer, as [str] of a Python [int]. *)
Definition decimal (n : Z) : string := NilEmpty.string_of_int (Z.to_int n).

Fixpoint join (sep : string) (parts : list string) : string :=
  match parts with
  | [] => ""
  | [p] => p
  | p :: rest => p ++ sep ++ join sep rest
  end.

Definition is_continuation_byte (c : ascii) : bool :=
  let n := nat_of_ascii c in ((128 <=? n) && (n <? 192))%nat.

(** The characters of a string, one string per code point: a UTF-8
    continuation byte belongs to the character before it. [cur] is the
    character being read, [None] before the first one. *)
Fixpoint characters_from (cur : option string) (s : string) : list string :=
  match s with
  | EmptyString => match cur with None => [] | Some c => [c] end
  | String b rest =>
      match cur with
      | None => characters_from (Some (String b EmptyString)) rest
      | Some c =>
          if is_continuation_byte b
          then characters_from (Some (c ++ String b EmptyString)) rest
          else c :: characters_from (Some (String b EmptyString)) rest
      end
  end.

Definition characters (s : string) : list string := characters_from None s.

Definition is_lower (c : ascii) : bool :=
  let n := nat_of_ascii c in ((97 <=? n) && (n <=? 122))%nat.

Definition is_upper (c : ascii) : bool :=
  let n := nat_of_ascii c in ((65 <=? n) && (n <=? 90))%nat.

Definition to_upper (c : ascii) : ascii :=
  if is_lower c then ascii_of_nat (nat_of_ascii c - 32) else c.

Definition to_lower (c : ascii) : ascii :=
  if is_upper c then ascii_of_nat (nat_of_ascii c + 32) else c.

Fixpoint lower (s : string) : string :=
  match s with
  | EmptyString => EmptyString
  | String c rest => String (to_lower c) (lower rest)
  end.

(** [str.capitalize()]: the first character in upper case, the rest in lower
    case. The case mapping is the one of ASCII letters; bytes of code points
    above U+007F are left as they are. *)
Definition capitalize (s : string) : string :=
  match s with
  | EmptyString => EmptyString
  | String c rest => String (to_upper c) (lower rest)
  end.

(** ** Parsed JSON and the Python operations on it *)

Set Warnings "-register-all".

(** What [json.loads] builds. A float is held as the text [repr] gives it
    (floating point itself is not modelled); a dict is held as its items in
    insertion order. *)
Inductive json : Type :=
| JNull
| JBool (b : bool)
| JInt (n : Z)
| JFloat (text : string)
| JStr (s : string)
| JList (items : list json)
| JDict (fields : list (string * json)).

(** The exceptions the subscripts, membership tests and method calls of the
    tool functions can raise. *)
Inductive exn : Type :=
| KeyError (key : string)
| TypeError
| AttributeError.

Inductive result (E A : Type) : Type :=
| Ok (a : A)
| Raise (e : E).

Arguments Ok {E A} a.
Arguments Raise {E A} e.

Definition bind {E A B : Type} (c : result E A) (k : A -> result E B) : result E B :=
  match c with
  | Ok a => k a
  | Raise e => Raise e
  end.

Notation "x <- c ;; k" := (bind c (fun x => k))
  (at level 61, c at next level, right associativity).

(** A computation on JSON values that returns or raises. *)
Abbreviation py A := (result exn A).

(** Lookup of a key among the items of a dict. *)
Fixpoint lookup (key : string) (fields : list (string * json)) : option json :=
  match fields with
  | [] => None
  | (k, v) :: rest => if String.eqb k key then Some v else lookup key rest
  end.

Definition has_key (key : string) (fields : list (string * json)) : bool :=
  match lookup key fields with Some _ => true | None => false end.

Definition is_str (key : string) (v : json) : bool :=
  match v with
  | JStr s => String.eqb s key
  | _ => false
  end.

(** [key in v] for a string key: a key of a dict, an element of a list, a
    substring of a string; [TypeError] on a value that is not a container. *)
Definition py_in (key : string) (v : json) : py bool :=
  match v with
  | JDict fields => Ok (has_key key fields)
  | JList items => Ok (existsb (is_str key) items)
  | JStr s => Ok (contains key s)
  | _ => Raise TypeError
  end.

(** [v[key]] for a string key: [KeyError] on a dict without the key,
    [TypeError] on every other value. *)
Definition py_getitem (v : json) (key : string) : py json :=
  match v with
  | JDict fields =>
      match lookup key fields with
      | Some x => Ok x
      | None => Raise (KeyError key)
      end
  | _ => Raise TypeError
  end.

(** [v.get(key, default)]: only a dict has the method. *)
Definition py_get (v : json) (key : string) (default : json) : py json :=
  match v with
  | JDict fields =>
      match lookup key fields with
      | Some x => Ok x
      | None => Ok default
      end
  | _ => Raise AttributeError
  end.

(** Truthiness, as [if v] and [... and v] test it. *)
Definition py_truthy (v : json) : bool :=
  match v with
  | JNull => false
  | JBool b => b
  | JInt n => negb (Z.eqb n 0)
  | JFloat text => negb (String.eqb text "0.0" || String.eqb text "-0.0")
  | JStr s => negb (String.eqb s "")
  | JList items => match items with [] => false | _ => true end
  | JDict fields => match fields with [] => false | _ => true end
  end.

(** What [for x in v] goes through: the elements of a list, the keys of a
    dict, the characters of a string. *)
Definition py_iter (v : json) : py (list json) :=
  match v with
  | JList items => Ok items
  | JDict fields => Ok (map (fun kv => JStr (fst kv)) fields)
  | JStr s => Ok (map JStr (characters s))
  | _ => Raise TypeError
  end.

Definition hex_digit (n : nat) : ascii :=
  if (n <? 10)%nat then ascii_of_nat (48 + n) else ascii_of_nat (87 + n).

(** One character of a string inside [repr]'s quotes [q]. *)
Definition repr_char (q c : ascii) : string :=
  let n := nat_of_ascii c in
  if Ascii.eqb c "\"%char then "\\"
  else if Ascii.eqb c q then String "\"%char (String c EmptyString)
  else if (n =? 9)%nat then "\t"
  else if (n =? 10)%nat then "\n"
  else if (n =? 13)%nat then "\r"
  else if ((n <? 32) || (n =? 127))%nat
       then "\x" ++ String (hex_digit (n / 16)) (String (hex_digit (n mod 16)) EmptyString)
  else String c EmptyString.

Fixpoint repr_chars (q : ascii) (s : string) : string :=
  match s with
  | EmptyString => EmptyString
  | String c rest => repr_char q c ++ repr_chars q rest
  end.

(** [repr] of a string: in apostrophes, or in double quotes when the string
    has an apostrophe and no double quote. Code points above U+007F are
    kept (Python escapes those of them that are not printable). *)
Definition repr_str (s : string) : string :=
  if contains SQUOTE s && negb (contains DQUOTE s)
  then DQUOTE ++ repr_chars "034"%char s ++ DQUOTE
  else SQUOTE ++ repr_chars "'"%char s ++ SQUOTE.

(** [repr] of a parsed JSON value. *)
Fixpoint py_repr (v : json) : string :=
  match v with
  | JNull => "None"
  | JBool true => "True"
  | JBool false => "False"
  | JInt n => decimal n
  | JFloat text => text
  | JStr s => repr_str s
  | JList items => "[" ++ join ", " (map py_repr items) ++ "]"
  | JDict fields =>
      "{" ++ join ", " (map (fun kv => repr_str (fst kv) ++ ": " ++ py_repr (snd kv)) fields) ++ "}"
  end.

(** What an f-string substitutes for [{v}]: [str(v)], the string itself for
    a string and [repr] for every other JSON value. *)
Definition py_str (v : json) : string :=
  match v with
  | JStr s => s
  | _ => py_repr v
  end.

(** [c in v and v[c]]: the guard of every list section. *)
Definition in_and_truthy (key : string) (v : json) : py bool :=
  c <- py_in key v ;;
  if c then x <- py_getitem v key ;; Ok (py_truthy x) else Ok false.

(** The body of a [for] loop run over [items], [result] being the text
    built so far. *)
Fixpoint for_each (items : list json) (result : string)
    (body : string -> json -> py string) : py string :=
  match items with
  | [] => Ok result
  | x :: rest => result <- body result x ;; for_each rest result body
  end.

(** ** The clock *)

(** What [datetime.now()] reads. *)
Record datetime : Type := {
  year : Z; month : Z; day : Z;
  hour : Z; minute : Z; second : Z
}.

Fixpoint zeros (k : nat) : string :=
  match k with
  | O => EmptyString
  | S k' => String "0"%char (zeros k')
  end.

(** A number in decimal, zero-padded on the left to [width] digits. *)
Definition zero_pad (width : nat) (n : Z) : string :=
  let digits := decimal n in
  zeros (width - String.length digits) ++ digits.

(** [strftime('%Y-%m-%d %H:%M:%S')]. For a year below 1000 the C library
    decides whether [%Y] is padded; the statements on the format take a year
    of four digits. *)
Definition strftime (t : datetime) : string :=
  zero_pad 4 (year t) ++ "-" ++ zero_pad 2 (month t) ++ "-" ++ zero_pad 2 (day t)
  ++ " " ++ zero_pad 2 (hour t) ++ ":" ++ zero_pad 2 (minute t) ++ ":" ++ zero_pad 2 (second t).

(** ** The upstream client *)

Record config : Type := {
  API_BASE : string;
  API_KEY : string
}.

(** A request handed to [httpx]: [client.get(url, headers, params, timeout)]
    or [client.post(url, headers, json, timeout)]. *)
Record request : Type := {
  req_method : string;
  req_url : string;
  req_headers : list (string * string);
  req_params : option json;
  req_json : option json;
  req_timeout : Z
}.

(** What [response.json()] gives: the parsed body, or the decoder's error. *)
Inductive parsed : Type :=
| Parsed (v : json)
| Malformed (message : string).

Record response : Type := {
  status_code : Z;
  text : string;
  body : parsed
}.

(** What the network does with one request: a response, a failure that
    [httpx] reports as [httpx.RequestError] (connection, DNS, timeout), or
    any other exception. *)
Inductive http_outcome : Type :=
| Responded (r : response)
| TransportFailure (message : string)
| OtherFailure (message : string).

(** The exceptions the [except] clauses of [make_api_request] tell apart. *)
Inductive http_exn : Type :=
| HTTPStatusError (r : response)
| RequestError (message : string)
| OtherException (message : string).

Definition send (network : request -> http_outcome) (req : request)
    : result http_exn response :=
  match network req with
  | Responded r => Ok r
  | TransportFailure m => Raise (RequestError m)
  | OtherFailure m => Raise (OtherException m)
  end.

(** [httpx.Response.is_success]: a status from 200 to 299. *)
Definition is_success (status : Z) : bool :=
  ((200 <=? status) && (status <=? 299))%Z.

(** [response.raise_for_status()]. *)
Definition raise_for_status (r : response) : result http_exn unit :=
  if is_success (status_code r) then Ok tt else Raise (HTTPStatusError r).

(** [response.json()]: a decoding error is a [ValueError]. *)
Definition response_json (r : response) : result http_exn json :=
  match body r with
  | Parsed v => Ok v
  | Malformed m => Raise (OtherException m)
  end.

Definition error_payload (message : string) : json :=
  JDict [("error", JStr message)].

(** [make_api_request], lines 25-51: the payload returned and the requests
    sent to the network, in order. *)
Definition make_api_request (cfg : config) (network : request -> http_outcome)
    (endpoint method : string) (params data : option json) : json * list request :=
  let headers :=
    [("Authorization", "Bearer " ++ API_KEY cfg);
     ("Content-Type", "application/json");
     ("Accept", "application/json")] in
  let url := API_BASE cfg ++ "/" ++ endpoint in
  let attempt : result http_exn json * list request :=
    if String.eqb method "GET" then
      let req := {| req_method := "GET"; req_url := url; req_headers := headers;
                    req_params := params; req_json := None; req_timeout := 30 |} in
      (response <- send network req ;;
       _ <- raise_for_status response ;;
       response_json response,
       [req])
    else if String.eqb method "POST" then
      let req := {| req_method := "POST"; req_url := url; req_headers := headers;
                    req_params := None; req_json := data; req_timeout := 30 |} in
      (response <- send network req ;;
       _ <- raise_for_status response ;;
       response_json response,
       [req])
    else
      (Ok (error_payload ("Unsupported method: " ++ method)), [])
  in
  let payload :=
    match fst attempt with
    | Ok v => v
    | Raise (HTTPStatusError r) =>
        JDict [("error", JStr ("HTTP error: " ++ decimal (status_code r)));
               ("details", JStr (text r))]
    | Raise (RequestError m) => error_payload ("Request error: " ++ m)
    | Raise (OtherException m) => error_payload ("Unexpected error: " ++ m)
    end
  in
  (payload, snd attempt).

(** ** The process environment *)

Record world : Type := {
  DEVELOPMENT_MODE : option string;
  network : request -> http_outcome;
  now : datetime
}.

(** [os.environ.get("DEVELOPMENT_MODE")] as a condition: the variable is set
    and not empty. *)
Definition development_mode (w : world) : bool :=
  match DEVELOPMENT_MODE w with
  | Some v => negb (String.eqb v "")
  | None => false
  end.

(** ** The tools

    Each tool function fetches its payload (the mock in development mode,
    the upstream client otherwise) and renders it by appending to [result],
    one [if] statement after the other. Each such statement is a definition
    below, taking the text built so far and returning the text extended. *)

(** *** analyze_transaction *)

Definition analyze_transaction_mock : json :=
  JDict
    [("compliance_status", JStr "COMPLIANT");
     ("risk_score", JInt 25);
     ("issues",
      JList
        [JDict
           [("category", JStr "Documentation");
            ("description", JStr "Missing secondary verification for high-value transaction");
            ("recommendation", JStr "Request additional documentation from the customer")]]);
     ("regulatory_references",
      JList
        [JDict
           [("code", JStr "REG-123");
            ("description", JStr "High-value transaction verification requirements")]])].

(** Lines 96-97. *)
Definition transaction_status (data : json) (result : string) : py string :=
  c <- py_in "compliance_status" data ;;
  if c then
    v <- py_getitem data "compliance_status" ;;
    Ok (result ++ ("**Compliance Status**: " ++ py_str v ++ LF))
  else Ok result.

(** Lines 99-100. *)
Definition transaction_risk_score (data : json) (result : string) : py string :=
  c <- py_in "risk_score" data ;;
  if c then
    v <- py_getitem data "risk_score" ;;
    Ok (result ++ ("**Risk Score**: " ++ py_str v ++ "/100" ++ LF))
  else Ok result.

(** Lines 105-107: the body of the loop over the issues. *)
Definition transaction_issue (result : string) (issue : json) : py string :=
  category <- py_getitem issue "category" ;;
  description <- py_getitem issue "description" ;;
  result <- Ok (result ++ ("- **" ++ py_str category ++ "**: " ++ py_str description ++ LF)) ;;
  c <- py_in "recommendation" issue ;;
  if c then
    v <- py_getitem issue "recommendation" ;;
    Ok (result ++ ("  - Recommendation: " ++ py_str v ++ LF))
  else Ok result.

(** Lines 102-109. *)
Definition transaction_issues (data : json) (result : string) : py string :=
  c <- in_and_truthy "issues" data ;;
  if c then
    result <- Ok (result ++ (LF ++ "### Identified Issues" ++ LF ++ LF)) ;;
    issues <- py_getitem data "issues" ;;
    items <- py_iter issues ;;
    for_each items result transaction_issue
  else Ok (result ++ (LF ++ "### No compliance issues detected" ++ LF)).

(** Line 114: the body of the loop over the references. *)
Definition transaction_reference (result : string) (ref : json) : py string :=
  code <- py_getitem ref "code" ;;
  description <- py_getitem ref "description" ;;
  Ok (result ++ ("- " ++ py_str code ++ ": " ++ py_str description ++ LF)).

(** Lines 111-114. *)
Definition transaction_references (data : json) (result : string) : py string :=
  c <- in_and_truthy "regulatory_references" data ;;
  if c then
    result <- Ok (result ++ (LF ++ "### Regulatory References" ++ LF ++ LF)) ;;
    refs <- py_getitem data "regulatory_references" ;;
    items <- py_iter refs ;;
    for_each items result transaction_reference
  else Ok result.

(** Lines 96-116: the sections, in order. *)
Definition analyze_transaction_sections (data : json) (result : string) : py string :=
  result <- transaction_status data result ;;
  result <- transaction_risk_score data result ;;
  result <- transaction_issues data result ;;
  result <- transaction_references data result ;;
  Ok result.

(** Lines 88-116: from the payload to the report. *)
Definition analyze_transaction_report (t : datetime) (transaction_id : string)
    (data : json) : py string :=
  err <- py_in "error" data ;;
  if err then
    e <- py_getitem data "error" ;;
    Ok ("Error analyzing transaction: " ++ py_str e)
  else
    result <- Ok ("## Transaction Compliance Analysis" ++ LF ++ LF) ;;
    result <- Ok (result ++ ("**Transaction ID**: " ++ transaction_id ++ LF)) ;;
    result <- Ok (result ++ ("**Analysis Time**: " ++ strftime t ++ LF ++ LF)) ;;
    analyze_transaction_sections data result.

(** Lines 56-116, the tool: the report (or the exception that escapes) and
    the requests sent upstream. *)
Definition analyze_transaction (cfg : config) (w : world) (transaction_id : string)
    : py string * list request :=
  let fetched :=
    if development_mode w then (analyze_transaction_mock, [])
    else make_api_request cfg (network w)
           ("transactions/" ++ transaction_id ++ "/analyze") "GET" None None in
  (analyze_transaction_report (now w) transaction_id (fst fetched), snd fetched).

(** *** verify_customer_kyc *)

Definition verify_customer_kyc_mock : json :=
  JDict
    [("verification_status", JStr "VERIFIED");
     ("verification_date", JStr "2025-03-15");
     ("identity_verification",
      JDict
        [("status", JStr "VERIFIED");
         ("method", JStr "Document Verification + Biometric");
         ("issues", JList [])]);
     ("aml_screening",
      JDict
        [("status", JStr "CLEARED");
         ("risk_level", JStr "LOW");
         ("matches", JList [])]);
     ("required_actions", JList [])].

(** Lines 157-158. *)
Definition kyc_status (data : json) (result : string) : py string :=
  c <- py_in "verification_status" data ;;
  if c then
    v <- py_getitem data "verification_status" ;;
    Ok (result ++ ("**Verification Status**: " ++ py_str v ++ LF))
  else Ok result.

(** Lines 160-161. *)
Definition kyc_date (data : json) (result : string) : py string :=
  c <- py_in "verification_date" data ;;
  if c then
    v <- py_getitem data "verification_date" ;;
    Ok (result ++ ("**Last Verified**: " ++ py_str v ++ LF))
  else Ok result.

(** Line 171. *)
Definition kyc_issue (result : string) (issue : json) : py string :=
  Ok (result ++ ("  - " ++ py_str issue ++ LF)).

(** Lines 163-171. *)
Definition kyc_identity_verification (data : json) (result : string) : py string :=
  c <- py_in "identity_verification" data ;;
  if c then
    result <- Ok (result ++ (LF ++ "### Identity Verification" ++ LF ++ LF)) ;;
    id_verification <- py_getitem data "identity_verification" ;;
    status <- py_get id_verification "status" (JStr "Unknown") ;;
    result <- Ok (result ++ ("- **Status**: " ++ py_str status ++ LF)) ;;
    method <- py_get id_verification "method" (JStr "Unknown") ;;
    result <- Ok (result ++ ("- **Method**: " ++ py_str method ++ LF)) ;;
    c <- in_and_truthy "issues" id_verification ;;
    if c then
      result <- Ok (result ++ ("- **Issues**:" ++ LF)) ;;
      issues <- py_getitem id_verification "issues" ;;
      items <- py_iter issues ;;
      for_each items result kyc_issue
    else Ok result
  else Ok result.

(** Line 181: [.get] without a default gives [None]. *)
Definition kyc_match (result : string) (match_ : json) : py string :=
  list_name <- py_get match_ "list_name" JNull ;;
  match_details <- py_get match_ "match_details" JNull ;;
  Ok (result ++ ("  - " ++ py_str list_name ++ ": " ++ py_str match_details ++ LF)).

(** Lines 173-181. *)
Definition kyc_aml_screening (data : json) (result : string) : py string :=
  c <- py_in "aml_screening" data ;;
  if c then
    result <- Ok (result ++ (LF ++ "### AML Screening" ++ LF ++ LF)) ;;
    aml <- py_getitem data "aml_screening" ;;
    status <- py_get aml "status" (JStr "Unknown") ;;
    result <- Ok (result ++ ("- **Status**: " ++ py_str status ++ LF)) ;;
    risk_level <- py_get aml "risk_level" (JStr "Unknown") ;;
    result <- Ok (result ++ ("- **Risk Level**: " ++ py_str risk_level ++ LF)) ;;
    c <- in_and_truthy "matches" aml ;;
    if c then
      result <- Ok (result ++ ("- **Watchlist Matches**:" ++ LF)) ;;
      matches <- py_getitem aml "matches" ;;
      items <- py_iter matches ;;
      for_each items result kyc_match
    else Ok result
  else Ok result.

(** Line 186, and the same line of the other recommendation lists. *)
Definition bullet (result : string) (item : json) : py string :=
  Ok (result ++ ("- " ++ py_str item ++ LF)).

(** Lines 183-186. *)
Definition kyc_required_actions (data : json) (result : string) : py string :=
  c <- in_and_truthy "required_actions" data ;;
  if c then
    result <- Ok (result ++ (LF ++ "### Required Actions" ++ LF ++ LF)) ;;
    actions <- py_getitem data "required_actions" ;;
    items <- py_iter actions ;;
    for_each items result bullet
  else Ok result.

(** Lines 157-188: the sections, in order. *)
Definition verify_customer_kyc_sections (data : json) (result : string) : py string :=
  result <- kyc_status data result ;;
  result <- kyc_date data result ;;
  result <- kyc_identity_verification data result ;;
  result <- kyc_aml_screening data result ;;
  result <- kyc_required_actions data result ;;
  Ok result.

(** Lines 149-188. *)
Definition verify_customer_kyc_report (t : datetime) (customer_id : string)
    (data : json) : py string :=
  err <- py_in "error" data ;;
  if err then
    e <- py_getitem data "error" ;;
    Ok ("Error verifying customer KYC: " ++ py_str e)
  else
    result <- Ok ("## Customer KYC Verification" ++ LF ++ LF) ;;
    result <- Ok (result ++ ("**Customer ID**: " ++ customer_id ++ LF)) ;;
    result <- Ok (result ++ ("**Verification Time**: " ++ strftime t ++ LF ++ LF)) ;;
    verify_customer_kyc_sections data result.

(** Lines 119-188. *)
Definition verify_customer_kyc (cfg : config) (w : world) (customer_id : string)
    : py string * list request :=
  let fetched :=
    if development_mode w then (verify_customer_kyc_mock, [])
    else make_api_request cfg (network w)
           ("customers/" ++ customer_id ++ "/kyc") "GET" None None in
  (verify_customer_kyc_report (now w) customer_id (fst fetched), snd fetched).

(** *** analyze_communication *)

Definition analyze_communication_mock : json :=
  JDict
    [("communication_type", JStr "Email");
     ("compliance_status", JStr "REVIEW_REQUIRED");
     ("sentiment_analysis", JDict [("overall", JStr "Neutral")]);
     ("issues",
      JList
        [JDict
           [("category", JStr "Disclosure");
            ("description", JStr "Missing required risk disclosure");
            ("severity", JStr "Medium");
            ("context", JStr "We recommend investing in our new high-yield fund...")]]);
     ("recommendations",
      JList
        [JStr "Add standard risk disclosure statement";
         JStr "Include performance disclaimer"])].

(** Lines 233-234. *)
Definition communication_type (data : json) (result : string) : py string :=
  c <- py_in "communication_type" data ;;
  if c then
    v <- py_getitem data "communication_type" ;;
    Ok (result ++ ("**Type**: " ++ py_str v ++ LF))
  else Ok result.

(** Lines 236-237. *)
Definition communication_status (data : json) (result : string) : py string :=
  c <- py_in "compliance_status" data ;;
  if c then
    v <- py_getitem data "compliance_status" ;;
    Ok (result ++ ("**Compliance Status**: " ++ py_str v ++ LF))
  else Ok result.

(** Lines 239-241. *)
Definition communication_sentiment (data : json) (result : string) : py string :=
  c <- py_in "sentiment_analysis" data ;;
  if c then
    sentiment <- py_getitem data "sentiment_analysis" ;;
    overall <- py_get sentiment "overall" (JStr "Unknown") ;;
    Ok (result ++ ("**Sentiment**: " ++ py_str overall ++ LF))
  else Ok result.

(** Lines 246-250: the body of the loop over the issues. *)
Definition communication_issue (result : string) (issue : json) : py string :=
  category <- py_getitem issue "category" ;;
  description <- py_getitem issue "description" ;;
  result <- Ok (result ++ ("- **" ++ py_str category ++ "**: " ++ py_str description ++ LF)) ;;
  result <- (c <- py_in "severity" issue ;;
             if c then
               v <- py_getitem issue "severity" ;;
               Ok (result ++ ("  - Severity: " ++ py_str v ++ LF))
             else Ok result) ;;
  c <- py_in "context" issue ;;
  if c then
    v <- py_getitem issue "context" ;;
    Ok (result ++ ("  - Context: " ++ DQUOTE ++ py_str v ++ DQUOTE ++ LF))
  else Ok result.

(** Lines 243-252. *)
Definition communication_issues (data : json) (result : string) : py string :=
  c <- in_and_truthy "issues" data ;;
  if c then
    result <- Ok (result ++ (LF ++ "### Identified Issues" ++ LF ++ LF)) ;;
    issues <- py_getitem data "issues" ;;
    items <- py_iter issues ;;
    for_each items result communication_issue
  else Ok (result ++ (LF ++ "### No compliance issues detected" ++ LF)).

(** Lines 254-257. *)
Definition communication_recommendations (data : json) (result : string) : py string :=
  c <- in_and_truthy "recommendations" data ;;
  if c then
    result <- Ok (result ++ (LF ++ "### Recommendations" ++ LF ++ LF)) ;;
    recs <- py_getitem data "recommendations" ;;
    items <- py_iter recs ;;
    for_each items result bullet
  else Ok result.

(** Lines 233-259: the sections, in order. *)
Definition analyze_communication_sections (data : json) (result : string) : py string :=
  result <- communication_type data result ;;
  result <- communication_status data result ;;
  result <- communication_sentiment data result ;;
  result <- communication_issues data result ;;
  result <- communication_recommendations data result ;;
  Ok result.

(** Lines 225-259. *)
Definition analyze_communication_report (t : datetime) (communication_id : string)
    (data : json) : py string :=
  err <- py_in "error" data ;;
  if err then
    e <- py_getitem data "error" ;;
    Ok ("Error analyzing communication: " ++ py_str e)
  else
    result <- Ok ("## Communication Compliance Analysis" ++ LF ++ LF) ;;
    result <- Ok (result ++ ("**Communication ID**: " ++ communication_id ++ LF)) ;;
    result <- Ok (result ++ ("**Analysis Time**: " ++ strftime t ++ LF ++ LF)) ;;
    analyze_communication_sections data result.

(** Lines 191-259. *)
Definition analyze_communication (cfg : config) (w : world) (communication_id : string)
    : py string * list request :=
  let fetched :=
    if development_mode w then (analyze_communication_mock, [])
    else make_api_request cfg (network w)
           ("communications/" ++ communication_id ++ "/analyze") "GET" None None in
  (analyze_communication_report (now w) communication_id (fst fetched), snd fetched).

(** *** get_regulatory_updates *)

Definition get_regulatory_updates_mock : json :=
  JDict
    [("updates",
      JList
        [JDict
           [("title", JStr "New AML Reporting Requirements");
            ("date", JStr "2025-03-01");
            ("jurisdiction", JStr "United States");
            ("category", JStr "Anti-Money Laundering");
            ("summary", JStr "The Financial Crimes Enforcement Network (FinCEN) has issued new guidelines for reporting suspicious transactions related to cryptocurrency exchanges.");
            ("action_items",
             JList
               [JStr "Update AML monitoring systems";
                JStr "Train compliance staff on new requirements";
                JStr "Implement enhanced due diligence for crypto transactions"])];
         JDict
           [("title", JStr "ESG Disclosure Framework");
            ("date", JStr "2025-02-15");
            ("jurisdiction", JStr "European Union");
            ("category", JStr "ESG Compliance");
            ("summary", JStr "The European Securities and Markets Authority (ESMA) has finalized the new ESG disclosure framework for financial products.");
            ("action_items",
             JList
               [JStr "Assess current ESG reporting capabilities";
                JStr "Implement new disclosure templates";
                JStr "Review investment products for compliance"])]])].

(** Lines 316-319. *)
Definition update_action_items (update : json) (result : string) : py string :=
  c <- in_and_truthy "action_items" update ;;
  if c then
    result <- Ok (result ++ ("**Required Actions**:" ++ LF)) ;;
    action_items <- py_getitem update "action_items" ;;
    items <- py_iter action_items ;;
    for_each items result bullet
  else Ok result.

(** Lines 310-321: the body of the loop over the updates. *)
Definition regulatory_update (result : string) (update : json) : py string :=
  title <- py_get update "title" (JStr "Untitled Update") ;;
  result <- Ok (result ++ ("### " ++ py_str title ++ LF ++ LF)) ;;
  date <- py_get update "date" (JStr "Unknown") ;;
  result <- Ok (result ++ ("**Date**: " ++ py_str date ++ LF)) ;;
  jurisdiction <- py_get update "jurisdiction" (JStr "Global") ;;
  result <- Ok (result ++ ("**Jurisdiction**: " ++ py_str jurisdiction ++ LF)) ;;
  category <- py_get update "category" (JStr "General") ;;
  result <- Ok (result ++ ("**Category**: " ++ py_str category ++ LF ++ LF)) ;;
  summary <- py_get update "summary" (JStr "No summary available") ;;
  result <- Ok (result ++ (py_str summary ++ LF ++ LF)) ;;
  result <- update_action_items update result ;;
  Ok (result ++ (LF ++ "---" ++ LF ++ LF)).

(** Lines 308-323. *)
Definition regulatory_updates (data : json) (result : string) : py string :=
  c <- in_and_truthy "updates" data ;;
  if c then
    updates <- py_getitem data "updates" ;;
    items <- py_iter updates ;;
    for_each items result regulatory_update
  else Ok (result ++ ("No recent regulatory updates available." ++ LF)).

(** Lines 308-325: the sections, in order. *)
Definition get_regulatory_updates_sections (data : json) (result : string) : py string :=
  result <- regulatory_updates data result ;;
  Ok result.

(** Lines 302-325: no line of this report reads the clock. *)
Definition get_regulatory_updates_report (data : json) : py string :=
  err <- py_in "error" data ;;
  if err then
    e <- py_getitem data "error" ;;
    Ok ("Error fetching regulatory updates: " ++ py_str e)
  else
    result <- Ok ("## Recent Regulatory Updates" ++ LF ++ LF) ;;
    get_regulatory_updates_sections data result.

(** Lines 262-325. *)
Definition get_regulatory_updates (cfg : config) (w : world)
    : py string * list request :=
  let fetched :=
    if development_mode w then (get_regulatory_updates_mock, [])
    else make_api_request cfg (network w) "regulatory/updates" "GET" None None in
  (get_regulatory_updates_report (fst fetched), snd fetched).

(** *** generate_compliance_report *)

Definition generate_compliance_report_mock : json :=
  JDict
    [("summary", JStr "This entity is generally compliant with current regulations, with minor issues requiring attention.");
     ("risk_assessment",
      JDict
        [("overall", JStr "Medium-Low");
         ("factors",
          JList
            [JDict
               [("name", JStr "Transaction Volume");
                ("level", JStr "Medium");
                ("details", JStr "Higher than average transaction volume for this customer segment")];
             JDict
               [("name", JStr "Geographic Risk");
                ("level", JStr "Low");
                ("details", JStr "Operations primarily in low-risk jurisdictions")];
             JDict
               [("name", JStr "Customer Due Diligence");
                ("level", JStr "Low");
                ("details", JStr "All required documentation is complete and verified")]])]);
     ("compliance_status",
      JDict
        [("overall", JStr "Compliant with Exceptions");
         ("categories",
          JList
            [JDict
               [("name", JStr "KYC/AML");
                ("status", JStr "Compliant");
                ("details", JStr "All KYC requirements met")];
             JDict
               [("name", JStr "Regulatory Reporting");
                ("status", JStr "Compliant with Exceptions");
                ("details", JStr "One late filing in the past quarter")];
             JDict
               [("name", JStr "Transaction Monitoring");
                ("status", JStr "Compliant");
                ("details", JStr "No suspicious activity detected")]])]);
     ("recommendations",
      JList
        [JStr "Review and update customer risk profile";
         JStr "Implement additional monitoring for high-volume transactions";
         JStr "Schedule quarterly compliance review"])].

(** Lines 405-406. *)
Definition report_summary (data : json) (result : string) : py string :=
  c <- py_in "summary" data ;;
  if c then
    v <- py_getitem data "summary" ;;
    Ok (result ++ ("### Summary" ++ LF ++ LF ++ py_str v ++ LF ++ LF))
  else Ok result.

(** Lines 416-418: the body of the loop over the risk factors. *)
Definition report_factor (result : string) (factor : json) : py string :=
  name <- py_getitem factor "name" ;;
  level <- py_getitem factor "level" ;;
  result <- Ok (result ++ ("- **" ++ py_str name ++ "**: " ++ py_str level ++ LF)) ;;
  c <- py_in "details" factor ;;
  if c then
    v <- py_getitem factor "details" ;;
    Ok (result ++ ("  - " ++ py_str v ++ LF))
  else Ok result.

(** Lines 408-418. *)
Definition report_risk_assessment (data : json) (result : string) : py string :=
  c <- py_in "risk_assessment" data ;;
  if c then
    risk <- py_getitem data "risk_assessment" ;;
    result <- Ok (result ++ ("### Risk Assessment" ++ LF ++ LF)) ;;
    overall <- py_get risk "overall" (JStr "Unknown") ;;
    result <- Ok (result ++ ("**Overall Risk**: " ++ py_str overall ++ LF)) ;;
    c <- in_and_truthy "factors" risk ;;
    if c then
      result <- Ok (result ++ (LF ++ "**Risk Factors**:" ++ LF)) ;;
      factors <- py_getitem risk "factors" ;;
      items <- py_iter factors ;;
      for_each items result report_factor
    else Ok result
  else Ok result.

(** Lines 427-429: the body of the loop over the categories. *)
Definition report_category (result : string) (category : json) : py string :=
  name <- py_getitem category "name" ;;
  status <- py_getitem category "status" ;;
  result <- Ok (result ++ ("- **" ++ py_str name ++ "**: " ++ py_str status ++ LF)) ;;
  c <- py_in "details" category ;;
  if c then
    v <- py_getitem category "details" ;;
    Ok (result ++ ("  - " ++ py_str v ++ LF))
  else Ok result.

(** Lines 420-429. *)
Definition report_compliance_status (data : json) (result : string) : py string :=
  c <- py_in "compliance_status" data ;;
  if c then
    status <- py_getitem data "compliance_status" ;;
    result <- Ok (result ++ (LF ++ "### Compliance Status" ++ LF ++ LF)) ;;
    overall <- py_get status "overall" (JStr "Unknown") ;;
    result <- Ok (result ++ ("**Status**: " ++ py_str overall ++ LF ++ LF)) ;;
    c <- in_and_truthy "categories" status ;;
    if c then
      categories <- py_getitem status "categories" ;;
      items <- py_iter categories ;;
      for_each items result report_category
    else Ok result
  else Ok result.

(** Lines 431-434. *)
Definition report_recommendations (data : json) (result : string) : py string :=
  c <- in_and_truthy "recommendations" data ;;
  if c then
    result <- Ok (result ++ (LF ++ "### Recommendations" ++ LF ++ LF)) ;;
    recs <- py_getitem data "recommendations" ;;
    items <- py_iter recs ;;
    for_each items result bullet
  else Ok result.

(** Lines 405-436: the sections, in order. *)
Definition generate_compliance_report_sections (data : json) (result : string) : py string :=
  result <- report_summary data result ;;
  result <- report_risk_assessment data result ;;
  result <- report_compliance_status data result ;;
  result <- report_recommendations data result ;;
  Ok result.

(** Lines 396-436. *)
Definition generate_compliance_report_report (t : datetime)
    (entity_id report_type : string) (data : json) : py string :=
  err <- py_in "error" data ;;
  if err then
    e <- py_getitem data "error" ;;
    Ok ("Error generating compliance report: " ++ py_str e)
  else
    result <- Ok ("## " ++ capitalize report_type ++ " Compliance Report" ++ LF ++ LF) ;;
    result <- Ok (result ++ ("**Entity ID**: " ++ entity_id ++ LF)) ;;
    result <- Ok (result ++ ("**Report Time**: " ++ strftime t ++ LF)) ;;
    result <- Ok (result ++ ("**Report Type**: " ++ capitalize report_type ++ LF ++ LF)) ;;
    generate_compliance_report_sections data result.

(** Lines 328-436. *)
Definition generate_compliance_report (cfg : config) (w : world)
    (entity_id report_type : string) : py string * list request :=
  let fetched :=
    if development_mode w then (generate_compliance_report_mock, [])
    else make_api_request cfg (network w) "reports/generate" "POST" None
           (Some (JDict [("entity_id", JStr entity_id);
                         ("report_type", JStr report_type)])) in
  (generate_compliance_report_report (now w) entity_id report_type (fst fetched),
   snd fetched).

(** *** The tool surface *)

(** A call of one of the five tools registered with [@mcp.tool()], with its
    arguments. *)
Inductive tool_call : Type :=
| AnalyzeTransaction (transaction_id : string)
| VerifyCustomerKyc (customer_id : string)
| AnalyzeCommunication (communication_id : string)
| GetRegulatoryUpdates
| GenerateComplianceReport (entity_id report_type : string).

(** The rendering part of the tool called. *)
Definition report (call : tool_call) (t : datetime) (data : json) : py string :=
  match call with
  | AnalyzeTransaction transaction_id => analyze_transaction_report t transaction_id data
  | VerifyCustomerKyc customer_id => verify_customer_kyc_report t customer_id data
  | AnalyzeCommunication communication_id =>
      analyze_communication_report t communication_id data
  | GetRegulatoryUpdates => get_regulatory_updates_report data
  | GenerateComplianceReport entity_id report_type =>
      generate_compliance_report_report t entity_id report_type data
  end.

(** The tool called. *)
Definition invoke (cfg : config) (w : world) (call : tool_call)
    : py string * list request :=
  match call with
  | AnalyzeTransaction transaction_id => analyze_transaction cfg w transaction_id
  | VerifyCustomerKyc customer_id => verify_customer_kyc cfg w customer_id
  | AnalyzeCommunication communication_id => analyze_communication cfg w communication_id
  | GetRegulatoryUpdates => get_regulatory_updates cfg w
  | GenerateComplianceReport entity_id report_type =>
      generate_compliance_report cfg w entity_id report_type
  end.

(** The sections of the tool called. *)
Definition sections (call : tool_call) (data : json) (result : string) : py string :=
  match call with
  | AnalyzeTransaction _ => analyze_transaction_sections data result
  | VerifyCustomerKyc _ => verify_customer_kyc_sections data result
  | AnalyzeCommunication _ => analyze_communication_sections data result
  | GetRegulatoryUpdates => get_regulatory_updates_sections data result
  | GenerateComplianceReport _ _ => generate_compliance_report_sections data result
  end.

(** The canned payload of the tool called. *)
Definition mock (call : tool_call) : json :=
  match call with
  | AnalyzeTransaction _ => analyze_transaction_mock
  | VerifyCustomerKyc _ => verify_customer_kyc_mock
  | AnalyzeCommunication _ => analyze_communication_mock
  | GetRegulatoryUpdates => get_regulatory_updates_mock
  | GenerateComplianceReport _ _ => generate_compliance_report_mock
  end.

(** ** Notions used in the statements *)

(** A block only appends: run on [acc] it returns [acc] followed by what it
    returns on the empty text, or raises what it raises there. *)
Definition appender (f : string -> py string) : Prop :=
  forall acc, f acc = (s <- f "" ;; Ok (acc ++ s)).

(** The heading line of each tool. *)
Definition heading (call : tool_call) : string :=
  match call with
  | AnalyzeTransaction _ => "## Transaction Compliance Analysis"
  | VerifyCustomerKyc _ => "## Customer KYC Verification"
  | AnalyzeCommunication _ => "## Communication Compliance Analysis"
  | GetRegulatoryUpdates => "## Recent Regulatory Updates"
  | GenerateComplianceReport _ report_type =>
      "## " ++ capitalize report_type ++ " Compliance Report"
  end.

(** What each tool writes before the message of an error payload. *)
Definition error_prefix (call : tool_call) : string :=
  match call with
  | AnalyzeTransaction _ => "Error analyzing transaction: "
  | VerifyCustomerKyc _ => "Error verifying customer KYC: "
  | AnalyzeCommunication _ => "Error analyzing communication: "
  | GetRegulatoryUpdates => "Error fetching regulatory updates: "
  | GenerateComplianceReport _ _ => "Error generating compliance report: "
  end.

(** The text of a report up to its timestamp, for the tools that write one. *)
Definition before_timestamp (call : tool_call) : option string :=
  match call with
  | AnalyzeTransaction transaction_id =>
      Some (heading call ++ LF ++ LF ++ "**Transaction ID**: " ++ transaction_id ++ LF
            ++ "**Analysis Time**: ")
  | VerifyCustomerKyc customer_id =>
      Some (heading call ++ LF ++ LF ++ "**Customer ID**: " ++ customer_id ++ LF
            ++ "**Verification Time**: ")
  | AnalyzeCommunication communication_id =>
      Some (heading call ++ LF ++ LF ++ "**Communication ID**: " ++ communication_id ++ LF
            ++ "**Analysis Time**: ")
  | GetRegulatoryUpdates => None
  | GenerateComplianceReport entity_id _ =>
      Some (heading call ++ LF ++ LF ++ "**Entity ID**: " ++ entity_id ++ LF
            ++ "**Report Time**: ")
  end.

(** The text between the timestamp and the sections. *)
Definition after_timestamp (call : tool_call) : string :=
  match call with
  | GenerateComplianceReport _ report_type =>
      LF ++ "**Report Type**: " ++ capitalize report_type ++ LF ++ LF
  | _ => LF ++ LF
  end.

(** The text of a success report before its sections. *)
Definition preamble (call : tool_call) (t : datetime) : string :=
  match before_timestamp call with
  | Some before => before ++ strftime t ++ after_timestamp call
  | None => heading call ++ LF ++ LF
  end.

(** *** The shape of a success payload (section 4.4 of the specification) *)

Definition is_list (v : json) : bool :=
  match v with JList _ => true | _ => false end.

Definition list_of (p : json -> bool) (v : json) : bool :=
  match v with JList items => forallb p items | _ => false end.

Definition dict_where (p : list (string * json) -> bool) (v : json) : bool :=
  match v with JDict fields => p fields | _ => false end.

Definition is_dict : json -> bool := dict_where (fun _ => true).

(** A mapping that has every key of [keys]. *)
Definition dict_with (keys : list string) : json -> bool :=
  dict_where (fun fields => forallb (fun k => has_key k fields) keys).

(** The field [key] is absent, or present with a value that satisfies [p]. *)
Definition optional (key : string) (p : json -> bool) (fields : list (string * json))
    : bool :=
  match lookup key fields with
  | Some v => p v
  | None => true
  end.

Definition transaction_shape (fields : list (string * json)) : bool :=
  optional "issues" (list_of (dict_with ["category"; "description"])) fields
  && optional "regulatory_references" (list_of (dict_with ["code"; "description"])) fields.

Definition kyc_shape (fields : list (string * json)) : bool :=
  optional "identity_verification" (dict_where (optional "issues" is_list)) fields
  && optional "aml_screening" (dict_where (optional "matches" (list_of is_dict))) fields
  && optional "required_actions" is_list fields.

Definition communication_shape (fields : list (string * json)) : bool :=
  optional "sentiment_analysis" is_dict fields
  && optional "issues" (list_of (dict_with ["category"; "description"])) fields
  && optional "recommendations" is_list fields.

Definition updates_shape (fields : list (string * json)) : bool :=
  optional "updates" (list_of (dict_where (optional "action_items" is_list))) fields.

Definition report_shape (fields : list (string * json)) : bool :=
  optional "risk_assessment"
    (dict_where (optional "factors" (list_of (dict_with ["name"; "level"])))) fields
  && optional "compliance_status"
       (dict_where (optional "categories" (list_of (dict_with ["name"; "status"])))) fields
  && optional "recommendations" is_list fields.

(** The fields of a success payload of the tool called: every list section
    is a list, every nested section a mapping, and every list element has
    the keys that section 4.4 does not mark optional. *)
Definition success_shape (call : tool_call) (fields : list (string * json)) : bool :=
  match call with
  | AnalyzeTransaction _ => transaction_shape fields
  | VerifyCustomerKyc _ => kyc_shape fields
  | AnalyzeCommunication _ => communication_shape fields
  | GetRegulatoryUpdates => updates_shape fields
  | GenerateComplianceReport _ _ => report_shape fields
  end.

(** An UpstreamResult: an error payload (a mapping with the key [error]),
    or a success payload of the shape above. *)
Definition upstream_result (call : tool_call) (data : json) : bool :=
  match data with
  | JDict fields => has_key "error" fields || success_shape call fields
  | _ => false
  end.

Definition success_payload (call : tool_call) (data : json) : bool :=
  match data with
  | JDict fields => negb (has_key "error" fields) && success_shape call fields
  | _ => false
  end.

(** The computation returns (it raises nothing). *)
Definition returns {A : Type} (c : py A) : Prop := exists a, c = Ok a.

(** *** The requests of section 6 of the specification *)

Definition endpoint (call : tool_call) : string :=
  match call with
  | AnalyzeTransaction transaction_id => "transactions/" ++ transaction_id ++ "/analyze"
  | VerifyCustomerKyc customer_id => "customers/" ++ customer_id ++ "/kyc"
  | AnalyzeCommunication communication_id =>
      "communications/" ++ communication_id ++ "/analyze"
  | GetRegulatoryUpdates => "regulatory/updates"
  | GenerateComplianceReport _ _ => "reports/generate"
  end.

Definition http_method (call : tool_call) : string :=
  match call with
  | GenerateComplianceReport _ _ => "POST"
  | _ => "GET"
  end.

Definition request_body (call : tool_call) : option json :=
  match call with
  | GenerateComplianceReport entity_id report_type =>
      Some (JDict [("entity_id", JStr entity_id); ("report_type", JStr report_type)])
  | _ => None
  end.

(** The request the client sends for [method], [endpoint], [params] and
    [data]: the URL joins the base and the endpoint, the bearer token is
    attached, a GET carries the query and a POST the body. *)
Definition http_request (cfg : config) (endpoint method : string)
    (params data : option json) : request :=
  {| req_method := method;
     req_url := API_BASE cfg ++ "/" ++ endpoint;
     req_headers := [("Authorization", "Bearer " ++ API_KEY cfg);
                     ("Content-Type", "application/json");
                     ("Accept", "application/json")];
     req_params := if String.eqb method "GET" then params else None;
     req_json := if String.eqb method "POST" then data else None;
     req_timeout := 30 |}.

Definition upstream_request (cfg : config) (call : tool_call) : request :=
  http_request cfg (endpoint call) (http_method call) None (request_body call).

(** *** The timestamp format *)

Definition is_digit (c : ascii) : bool :=
  let n := nat_of_ascii c in ((48 <=? n) && (n <=? 57))%nat.

(** [s] has the format [pattern]: a digit where the pattern has a letter,
    the character of the pattern elsewhere. *)
Fixpoint matches_format (pattern s : string) : bool :=
  match pattern, s with
  | EmptyString, EmptyString => true
  | String p pattern', String c s' =>
      (if is_upper p || is_lower p then is_digit c else Ascii.eqb p c)
      && matches_format pattern' s'
  | _, _ => false
  end.

Definition two_digits (s : string) : bool :=
  match s with
  | String a (String b EmptyString) => is_digit a && is_digit b
  | _ => false
  end.

Definition four_digits (s : string) : bool :=
  match s with
  | String a (String b (String c (String d EmptyString))) =>
      is_digit a && is_digit b && is_digit c && is_digit d
  | _ => false
  end.

(** A clock reading with a year of four digits. *)
Definition datetime_ok (t : datetime) : bool :=
  ((1000 <=? year t) && (year t <=? 9999)
   && (1 <=? month t) && (month t <=? 12)
   && (1 <=? day t) && (day t <=? 31)
   && (0 <=? hour t) && (hour t <=? 23)
   && (0 <=? minute t) && (minute t <=? 59)
   && (0 <=? second t) && (second t <=? 59))%Z.

(** *** Sample inputs *)

Definition sample_clock : datetime :=
  {| year := 2025; month := 3; day := 15; hour := 9; minute := 5; second := 0 |}.

Definition sample_config : config :=
  {| API_BASE := "https://api.compliance-service.com"; API_KEY := "secret" |}.

(** An issue that lacks its category. *)
Definition payload_issue_without_category : json :=
  JDict
    [("compliance_status", JStr "COMPLIANT");
     ("issues", JList [JDict [("description", JStr "Missing secondary verification")]])].

(** A risk factor that lacks its level. *)
Definition payload_factor_without_level : json :=
  JDict
    [("risk_assessment",
      JDict [("overall", JStr "Low");
             ("factors", JList [JDict [("name", JStr "Geographic Risk")]])])].

(** An error payload that carries success keys as well. *)
Definition payload_error_with_success_keys : json :=
  JDict
    [("compliance_status", JStr "COMPLIANT");
     ("risk_score", JInt 25);
     ("issues", JList []);
     ("error", JStr "HTTP error: 500");
     ("details", JStr "Internal Server Error")].

(** An upstream that answers every request with status 503. *)
Definition network_unavailable (req : request) : http_outcome :=
  Responded {| status_code := 503; text := "Service unavailable";
               body := Malformed "Expecting value: line 1 column 1 (char 0)" |}.

Definition world_unavailable : world :=
  {| DEVELOPMENT_MODE := None; network := network_unavailable; now := sample_clock |}.

Definition world_development : world :=
  {| DEVELOPMENT_MODE := Some "1"; network := network_unavailable; now := sample_clock |}.

(** *** Fallback texts and placeholders *)

(** The list whose absence or emptiness makes a tool write a fallback text,
    and that text. *)
Definition fallback (call : tool_call) : option (string * string) :=
  match call with
  | AnalyzeTransaction _ => Some ("issues", "No compliance issues detected")
  | AnalyzeCommunication _ => Some ("issues", "No compliance issues detected")
  | GetRegulatoryUpdates => Some ("updates", "No recent regulatory updates available.")
  | _ => None
  end.

(** The field [key] is absent or holds the empty list. *)
Definition empty_or_absent (key : string) (fields : list (string * json)) : bool :=
  match lookup key fields with
  | None => true
  | Some (JList []) => true
  | Some _ => false
  end.

(** The text shown for an optional field: its value, or the placeholder. *)
Definition shown_or (placeholder : string) (field : option json) : string :=
  match field with
  | Some v => py_str v
  | None => placeholder
  end.

(** The top-level sections that write nothing when their key is absent,
    with their keys. *)
Definition optional_sections : list (string * (json -> string -> py string)) :=
  [("compliance_status", transaction_status);
   ("risk_score", transaction_risk_score);
   ("regulatory_references", transaction_references);
   ("verification_status", kyc_status);
   ("verification_date", kyc_date);
   ("identity_verification", kyc_identity_verification);
   ("aml_screening", kyc_aml_screening);
   ("required_actions", kyc_required_actions);
   ("communication_type", communication_type);
   ("compliance_status", communication_status);
   ("sentiment_analysis", communication_sentiment);
   ("recommendations", communication_recommendations);
   ("action_items", update_action_items);
   ("summary", report_summary);
   ("risk_assessment", report_risk_assessment);
   ("compliance_status", report_compliance_status);
   ("recommendations", report_recommendations)].

(** Lines 168-171: the issues of the identity verification. *)
Definition identity_issues (id_verification : json) (result : string) : py string :=
  c <- in_and_truthy "issues" id_verification ;;
  if c then
    result <- Ok (result ++ ("- **Issues**:" ++ LF)) ;;
    issues <- py_getitem id_verification "issues" ;;
    items <- py_iter issues ;;
    for_each items result kyc_issue
  else Ok result.

(** Lines 178-181: the watchlist matches of the screening. *)
Definition aml_matches (aml : json) (result : string) : py string :=
  c <- in_and_truthy "matches" aml ;;
  if c then
    result <- Ok (result ++ ("- **Watchlist Matches**:" ++ LF)) ;;
    matches <- py_getitem aml "matches" ;;
    items <- py_iter matches ;;
    for_each items result kyc_match
  else Ok result.

(** Lines 413-418: the factors of the risk assessment. *)
Definition risk_factors (risk : json) (result : string) : py string :=
  c <- in_and_truthy "factors" risk ;;
  if c then
    result <- Ok (result ++ (LF ++ "**Risk Factors**:" ++ LF)) ;;
    factors <- py_getitem risk "factors" ;;
    items <- py_iter factors ;;
    for_each items result report_factor
  else Ok result.

(** Lines 425-429: the categories of the compliance status. *)
Definition status_categories (status : json) (result : string) : py string :=
  c <- in_and_truthy "categories" status ;;
  if c then
    categories <- py_getitem status "categories" ;;
    items <- py_iter categories ;;
    for_each items result report_category
  else Ok result.

(** The lists of a nested mapping or of an update, which write nothing when
    their key is absent, with their keys. *)
Definition nested_lists : list (string * (json -> string -> py string)) :=
  [("issues", identity_issues);
   ("matches", aml_matches);
   ("factors", risk_factors);
   ("categories", status_categories);
   ("action_items", update_action_items)].

(** An optional line of a list element: the value between two texts when
    the key is there, nothing when it is not. *)
Definition optional_line (before after : string) (field : option json) : string :=
  match field with
  | Some v => before ++ py_str v ++ after
  | None => ""
  end.

(** An identity verification that holds its issues only, and an issue of a
    communication that holds a context and no severity. *)
Definition payload_issues_only : json :=
  JDict [("identity_verification", JDict [("issues", JList [JStr "Name mismatch"])])].

Definition issue_with_context_only : json :=
  JDict [("category", JStr "Disclosure");
         ("description", JStr "Missing required risk disclosure");
         ("context", JStr "high-yield fund")].

(** An update in which every field is absent, and a watchlist match in
    which every field is absent. *)
Definition payload_empty_update : json :=
  JDict [("updates", JList [JDict []])].

Definition payload_empty_match : json :=
  JDict [("aml_screening", JDict [("matches", JList [JDict []])])].

(** A transaction payload without issues. *)
Definition payload_without_issues : json :=
  JDict
    [("compliance_status", JStr "COMPLIANT");
     ("risk_score", JInt 10);
     ("regulatory_references",
      JList [JDict [("code", JStr "REG-123");
                    ("description", JStr "High-value transaction verification requirements")]])].

(** *** The report of the concrete scenario (C9) *)

(** The lines of a text. *)
Fixpoint lines_from (cur s : string) : list string :=
  match s with
  | EmptyString => [cur]
  | String c rest =>
      if Ascii.eqb c "010"%char then cur :: lines_from EmptyString rest
      else lines_from (cur ++ String c EmptyString) rest
  end.

Definition lines (s : string) : list string := lines_from EmptyString s.

(** The number of bullet lines of a text. *)
Definition bullet_count (s : string) : nat :=
  List.length (filter (String.prefix "- ") (lines s)).

(** The sections of the mock report that precede the recommendations. *)
Definition summary_report_sections : string :=
  "### Summary" ++ LF ++ LF
  ++ "This entity is generally compliant with current regulations, with minor issues requiring attention."
  ++ LF ++ LF
  ++ "### Risk Assessment" ++ LF ++ LF
  ++ "**Overall Risk**: Medium-Low" ++ LF
  ++ LF ++ "**Risk Factors**:" ++ LF
  ++ "- **Transaction Volume**: Medium" ++ LF
  ++ "  - Higher than average transaction volume for this customer segment" ++ LF
  ++ "- **Geographic Risk**: Low" ++ LF
  ++ "  - Operations primarily in low-risk jurisdictions" ++ LF
  ++ "- **Customer Due Diligence**: Low" ++ LF
  ++ "  - All required documentation is complete and verified" ++ LF
  ++ LF ++ "### Compliance Status" ++ LF ++ LF
  ++ "**Status**: Compliant with Exceptions" ++ LF ++ LF
  ++ "- **KYC/AML**: Compliant" ++ LF
  ++ "  - All KYC requirements met" ++ LF
  ++ "- **Regulatory Reporting**: Compliant with Exceptions" ++ LF
  ++ "  - One late filing in the past quarter" ++ LF
  ++ "- **Transaction Monitoring**: Compliant" ++ LF
  ++ "  - No suspicious activity detected" ++ LF.

(** The recommendations of the mock report, below their heading. *)
Definition summary_report_recommendations : string :=
  "- Review and update customer risk profile" ++ LF
  ++ "- Implement additional monitoring for high-volume transactions" ++ LF
  ++ "- Schedule quarterly compliance review" ++ LF.


(** ** Notions used in the further statements *)

(** What [make_api_request] returns for what the network does with the
    request, read off lines 44-51. *)
Definition payload_of_outcome (o : http_outcome) : json :=
  match o with
  | Responded r =>
      if is_success (status_code r) then
        match body r with
        | Parsed v => v
        | Malformed m => error_payload ("Unexpected error: " ++ m)
        end
      else JDict [("error", JStr ("HTTP error: " ++ decimal (status_code r)));
                  ("details", JStr (text r))]
  | TransportFailure m => error_payload ("Request error: " ++ m)
  | OtherFailure m => error_payload ("Unexpected error: " ++ m)
  end.

(** The error message of an outcome that is not a successful response with
    a JSON body. *)
Definition failure_message (o : http_outcome) : option string :=
  match o with
  | Responded r =>
      if is_success (status_code r) then
        match body r with
        | Parsed _ => None
        | Malformed m => Some ("Unexpected error: " ++ m)
        end
      else Some ("HTTP error: " ++ decimal (status_code r))
  | TransportFailure m => Some ("Request error: " ++ m)
  | OtherFailure m => Some ("Unexpected error: " ++ m)
  end.

(** The top-level keys each tool reads in its payload. *)
Definition keys_read (call : tool_call) : list string :=
  match call with
  | AnalyzeTransaction _ =>
      ["error"; "compliance_status"; "risk_score"; "issues"; "regulatory_references"]
  | VerifyCustomerKyc _ =>
      ["error"; "verification_status"; "verification_date"; "identity_verification";
       "aml_screening"; "required_actions"]
  | AnalyzeCommunication _ =>
      ["error"; "communication_type"; "compliance_status"; "sentiment_analysis";
       "issues"; "recommendations"]
  | GetRegulatoryUpdates => ["error"; "updates"]
  | GenerateComplianceReport _ _ =>
      ["error"; "summary"; "risk_assessment"; "compliance_status"; "recommendations"]
  end.

(** The keys of list elements that each tool subscripts without a guard. *)
Definition unguarded_keys (call : tool_call) : list string :=
  match call with
  | AnalyzeTransaction _ => ["category"; "description"; "code"]
  | VerifyCustomerKyc _ => []
  | AnalyzeCommunication _ => ["category"; "description"]
  | GetRegulatoryUpdates => []
  | GenerateComplianceReport _ _ => ["name"; "level"; "status"]
  end.

(** The exception is none but a [KeyError] on one of [keys], a [TypeError]
    or an [AttributeError]. *)
Definition key_error_within (keys : list string) (e : exn) : Prop :=
  match e with
  | KeyError k => In k keys
  | TypeError => True
  | AttributeError => True
  end.

(** Every exception the computation can raise satisfies [P]. *)
Definition raises_only {A : Type} (P : exn -> Prop) (c : py A) : Prop :=
  forall e, c = Raise e -> P e.

(** One bullet line per item, in order. *)
Fixpoint bullet_lines (items : list json) : string :=
  match items with
  | [] => EmptyString
  | x :: rest => ("- " ++ py_str x ++ LF) ++ bullet_lines rest
  end.

(** The four sections that are a heading over one bullet per item, with
    their keys and headings. *)
Definition bullet_sections : list (string * string * (json -> string -> py string)) :=
  [("required_actions", LF ++ "### Required Actions" ++ LF ++ LF, kyc_required_actions);
   ("recommendations", LF ++ "### Recommendations" ++ LF ++ LF,
    communication_recommendations);
   ("action_items", "**Required Actions**:" ++ LF, update_action_items);
   ("recommendations", LF ++ "### Recommendations" ++ LF ++ LF, report_recommendations)].

(** A payload with a field the tools do not read. *)
Definition payload_with_unread_field : json :=
  JDict
    [("request_id", JStr "a1b2c3");
     ("compliance_status", JStr "COMPLIANT");
     ("risk_score", JInt 10)].

(** An upstream that answers every request with the number 42 as its body. *)
Definition network_number (req : request) : http_outcome :=
  Responded {| status_code := 200; text := "42"; body := Parsed (JInt 42) |}.

Definition world_number : world :=
  {| DEVELOPMENT_MODE := None; network := network_number; now := sample_clock |}.

(** An upstream that cannot be reached. *)
Definition network_down (req : request) : http_outcome :=
  TransportFailure "All connection attempts failed".

Definition world_down : world :=
  {| DEVELOPMENT_MODE := None; network := network_down; now := sample_clock |}.

(** An upstream that answers every request with the mock of the tool
    [call]. *)
Definition network_mock (call : tool_call) (req : request) : http_outcome :=
  Responded {| status_code := 200; text := ""; body := Parsed (mock call) |}.

Definition world_mock (call : tool_call) : world :=
  {| DEVELOPMENT_MODE := Some ""; network := network_mock call; now := sample_clock |}.

(** A JSON value on which [in] is defined: a string, a list or a mapping. *)
Definition is_container (v : json) : bool :=
  match v with
  | JStr _ | JList _ | JDict _ => true
  | _ => false
  end.

(** On a payload that is not a mapping the block raises [TypeError] or does
    what it does on the empty mapping. *)
Definition as_on_empty (f : json -> string -> py string) : Prop :=
  forall data acc, is_dict data = false ->
    f data acc = Raise TypeError \/ f data acc = f (JDict []) acc.

(** ** The process: configuration at import and the command line *)

(** [os.environ]: the latest assignment of a variable comes first. *)
Definition environ : Type := list (string * string).

Fixpoint getenv (key : string) (env : environ) : option string :=
  match env with
  | [] => None
  | (k, v) :: rest => if String.eqb k key then Some v else getenv key rest
  end.

(** [os.environ[key] = value]. *)
Definition setenv (key value : string) (env : environ) : environ :=
  (key, value) :: env.

(** Lines 19-20: the two constants read from the environment at import. *)
Definition load_config (env : environ) : config :=
  {| API_BASE := match getenv "COMPLIANCE_API_BASE" env with
                 | Some v => v
                 | None => "https://api.compliance-service.com"
                 end;
     API_KEY := match getenv "COMPLIANCE_API_KEY" env with
                | Some v => v
                | None => ""
                end |}.

(** A variable of the environment as a condition: set and not empty. *)
Definition env_truthy (v : option string) : bool :=
  match v with
  | Some s => negb (String.eqb s "")
  | None => false
  end.

Definition API_KEY_WARNING : string :=
  "WARNING: API key not found. Set COMPLIANCE_API_KEY environment variable for production use.".

(** Lines 22-23: what the import prints. *)
Definition import_output (env : environ) : list string :=
  if String.eqb (API_KEY (load_config env)) ""
     && negb (env_truthy (getenv "DEVELOPMENT_MODE" env))
  then [API_KEY_WARNING]
  else [].

(** What [argparse] parsed (lines 691-696): [--host], [--port], [--dev]. *)
Record arguments : Type := {
  arg_host : string;
  arg_port : Z;
  arg_dev : bool
}.

Definition default_arguments : arguments :=
  {| arg_host := "0.0.0.0"; arg_port := 8080; arg_dev := false |}.

(** The process once the server is about to run: what was printed, the
    environment, the constants of the module and what [uvicorn.run] and
    [create_starlette_app] are given. *)
Record startup : Type := {
  printed : list string;
  environment : environ;
  constants : config;
  serve_host : string;
  serve_port : Z;
  debug : bool
}.

(** The import of the module (lines 19-23) followed by the block under
    [if __name__ == "__main__"] (lines 684-703). *)
Definition main_block (env : environ) (args : arguments) : startup :=
  let cfg := load_config env in
  let out := import_output env in
  let env_out :=
    if arg_dev args
    then (setenv "DEVELOPMENT_MODE" "1" env,
          (out ++ ["Running in development mode with mock data"])%list)
    else (env, out) in
  {| printed := snd env_out;
     environment := fst env_out;
     constants := cfg;
     serve_host := arg_host args;
     serve_port := arg_port args;
     debug := arg_dev args |}.

(** The world a tool call sees in the started process. *)
Definition world_of (s : startup) (net : request -> http_outcome) (t : datetime) : world :=
  {| DEVELOPMENT_MODE := getenv "DEVELOPMENT_MODE" (environment s);
     network := net;
     now := t |}.

(** ** The tool listing of [/api/tools] *)

Definition parameter (name description : string) : json :=
  JDict [("name", JStr name); ("type", JStr "string"); ("description", JStr description)].

Definition descriptor (name description : string) (parameters : list json) : json :=
  JDict [("name", JStr name); ("description", JStr description);
         ("parameters", JList parameters)].

(** Lines 615-670: the list [tools] of [get_tools]. *)
Definition tools : list json :=
  [descriptor "analyze_transaction"
     "Analyze a financial transaction for compliance issues."
     [parameter "transaction_id" "The ID of the transaction to analyze"];
   descriptor "verify_customer_kyc"
     "Verify Know Your Customer (KYC) compliance for a specific customer."
     [parameter "customer_id" "The ID of the customer to verify"];
   descriptor "analyze_communication"
     "Analyze customer communication for compliance issues."
     [parameter "communication_id" "The ID of the communication to analyze"];
   descriptor "get_regulatory_updates"
     "Get the latest regulatory updates and changes relevant to financial compliance."
     [];
   descriptor "generate_compliance_report"
     "Generate a compliance report for a specific entity."
     [parameter "entity_id" "The ID of the entity (customer, account, etc.)";
      parameter "report_type" "Type of report (summary, detailed, risk, audit)"]].

(** Line 671: the body of the response of [get_tools]. *)
Definition get_tools : json := JDict [("tools", JList tools)].

(** Sample environments: nothing set; development mode set to [0]. *)
Definition environ_empty : environ := [].

Definition environ_zero : environ :=
  [("COMPLIANCE_API_KEY", "secret"); ("DEVELOPMENT_MODE", "0")].

Definition arguments_dev : arguments :=
  {| arg_host := "0.0.0.0"; arg_port := 8080; arg_dev := true |}.

(** ** The smoke test, [src/lib/mcp/test_mcp.py] *)

Module TestMcp.

(** A call of [requests.get]. *)
Record get_request : Type := {
  get_url : string;
  get_stream : bool;
  get_timeout : option Z
}.

(** The exceptions of [requests] that the test tells apart:
    [ConnectionError] (with its subclasses), [ReadTimeout], any other. *)
Inductive requests_error : Type :=
| ConnectionError
| ReadTimeout
| OtherError.

(** What [requests.get] does: a response, with its status and what
    [response.json()] gives, or an exception with its message. *)
Inductive get_outcome : Type :=
| Got (status : Z) (payload : parsed)
| Failed (kind : requests_error) (message : string).

(** An exception caught by [except Exception as e]: one whose text is its
    message, or one raised by an operation on the parsed JSON. *)
Inductive failure : Type :=
| Message (m : string)
| Python (e : exn).

(** What the test does, in order: a request, a line printed, or an error
    line, the prefix followed by [str(e)]. *)
Inductive event : Type :=
| Requested (r : get_request)
| Printed (line : string)
| PrintedError (prefix : string) (e : failure).

(** How a run ends: a value returned, or an exception that escapes. *)
Inductive ending (A : Type) : Type :=
| Returned (a : A)
| Escaped (kind : requests_error) (message : string).

Arguments Returned {A} a.
Arguments Escaped {A} kind message.

(** [len(v)]. *)
Definition py_len (v : json) : py Z :=
  match v with
  | JList items => Ok (Z.of_nat (List.length items))
  | JDict fields => Ok (Z.of_nat (List.length fields))
  | JStr s => Ok (Z.of_nat (List.length (characters s)))
  | _ => Raise TypeError
  end.

(** Lines 34-35: the loop over the tools; what it printed, and the
    exception that stopped it, if any. *)
Fixpoint print_tools (items : list json) : list event * py unit :=
  match items with
  | [] => ([], Ok tt)
  | tool :: rest =>
      match py_getitem tool "name" with
      | Raise e => ([], Raise e)
      | Ok name =>
          match py_getitem tool "description" with
          | Raise e => ([], Raise e)
          | Ok description =>
              let line := Printed ("  • " ++ py_str name ++ ": " ++ py_str description) in
              (line :: fst (print_tools rest), snd (print_tools rest))
          end
      end
  end.

(** Lines 27-37, the body of the second [try] once the response is there. *)
Definition list_tools (status : Z) (payload : parsed) : list event * result failure unit :=
  if Z.eqb status 200 then
    match payload with
    | Malformed m => ([], Raise (Message m))
    | Parsed v =>
        match py_get v "tools" (JList []) with
        | Raise e => ([], Raise (Python e))
        | Ok tools =>
            match py_len tools with
            | Raise e => ([], Raise (Python e))
            | Ok n =>
                let found :=
                  [Printed ("✅ Found " ++ decimal n ++ " tools available");
                   Printed (LF ++ "📋 Available Tools:")] in
                match py_iter tools with
                | Raise e => (found, Raise (Python e))
                | Ok items =>
                    ((found ++ fst (print_tools items))%list,
                     match snd (print_tools items) with
                     | Ok u => Ok u
                     | Raise e => Raise (Python e)
                     end)
                end
            end
        end
    end
  else
    ([Printed ("❌ API tools endpoint returned status code " ++ decimal status)], Ok tt).

(** Lines 25-39: the second test. *)
Definition test_tools (net : get_request -> get_outcome) (base_url : string) : list event :=
  let req := {| get_url := base_url ++ "/api/tools"; get_stream := false;
                get_timeout := None |} in
  (Requested req ::
   match net req with
   | Failed _ m => [PrintedError "❌ Error checking API tools: " (Message m)]
   | Got status payload =>
       match list_tools status payload with
       | (out, Ok _) => out
       | (out, Raise e) => out ++ [PrintedError "❌ Error checking API tools: " e]
       end
   end)%list.

(** Lines 41-55: the third test. *)
Definition test_sse (net : get_request -> get_outcome) (base_url : string) : list event :=
  let req := {| get_url := base_url ++ "/sse"; get_stream := true;
                get_timeout := Some 5%Z |} in
  [Printed (LF ++ "🔄 Testing SSE connection (will timeout after 5 seconds)...");
   Requested req;
   match net req with
   | Got status _ =>
       if Z.eqb status 200 then Printed "✅ SSE endpoint is available"
       else Printed ("❌ SSE endpoint returned status code " ++ decimal status)
   | Failed ReadTimeout _ =>
       Printed "✅ SSE connection established (timed out as expected)"
   | Failed _ m => PrintedError "❌ Error testing SSE connection: " (Message m)
   end].

(** Lines 9-58. *)
Definition test_mcp_server (net : get_request -> get_outcome) (base_url : string)
    : list event * ending bool :=
  let req := {| get_url := base_url; get_stream := false; get_timeout := None |} in
  let out := [Printed (LF ++ "🔍 Testing MCP server at " ++ base_url ++ "...");
              Requested req] in
  match net req with
  | Failed ConnectionError _ =>
      ((out ++ [Printed "❌ Failed to connect to server. Is it running?"])%list,
       Returned false)
  | Failed kind m => (out, Escaped kind m)
  | Got status _ =>
      if Z.eqb status 200 then
        ((out ++ [Printed "✅ Server is running"]
              ++ test_tools net base_url
              ++ test_sse net base_url
              ++ [Printed (LF ++ "✨ MCP server test completed successfully!")])%list,
         Returned true)
      else
        ((out ++ [Printed ("❌ Server returned status code " ++ decimal status)])%list,
         Returned false)
  end.

(** [c * n] for a string of one character. *)
Fixpoint repeat_string (c : string) (n : nat) : string :=
  match n with
  | O => EmptyString
  | S n' => c ++ repeat_string c n'
  end.

(** What [argparse] parsed (lines 62-65). *)
Record arguments : Type := {
  host : string;
  port : Z
}.

Definition default_arguments : arguments := {| host := "localhost"; port := 8080 |}.

(** Lines 60-88: what [main] does, and the exit status it returns. *)
Definition main (net : get_request -> get_outcome) (t : datetime) (args : arguments)
    : list event * ending Z :=
  let base_url := "http://" ++ host args ++ ":" ++ decimal (port args) in
  let banner :=
    [Printed (repeat_string "=" 60);
     Printed "🚀 Fintech Compliance MCP Server Test";
     Printed ("📅 " ++ strftime t);
     Printed (repeat_string "=" 60)] in
  match test_mcp_server net base_url with
  | (out, Escaped kind m) => ((banner ++ out)%list, Escaped kind m)
  | (out, Returned true) =>
      ((banner ++ out
               ++ [Printed (LF ++ "🎉 The MCP server is working properly!");
                   Printed (LF ++ "To integrate with NANDA, add the following server configuration:");
                   Printed (repeat_string "-" 60);
                   Printed (LF ++ "Server Name: Fintech Compliance" ++ LF
                            ++ "URL: " ++ base_url ++ LF
                            ++ "Description: AI-powered financial compliance tools for agentic workflows"
                            ++ LF ++ "        ");
                   Printed (repeat_string "-" 60)])%list,
       Returned 0%Z)
  | (out, Returned false) =>
      ((banner ++ out
               ++ [Printed (LF ++ "❌ Some tests failed. Please check the server logs for more information.")])%list,
       Returned 1%Z)
  end.

End TestMcp.

(** The requests among the events of a run, in order. *)
Definition requests_of (events : list TestMcp.event) : list TestMcp.get_request :=
  flat_map (fun e => match e with
                     | TestMcp.Requested r => [r]
                     | _ => []
                     end) events.

(** The three requests of the smoke test. *)
Definition home_request (base_url : string) : TestMcp.get_request :=
  {| TestMcp.get_url := base_url; TestMcp.get_stream := false;
     TestMcp.get_timeout := None |}.

Definition tools_request (base_url : string) : TestMcp.get_request :=
  {| TestMcp.get_url := base_url ++ "/api/tools"; TestMcp.get_stream := false;
     TestMcp.get_timeout := None |}.

Definition sse_request (base_url : string) : TestMcp.get_request :=
  {| TestMcp.get_url := base_url ++ "/sse"; TestMcp.get_stream := true;
     TestMcp.get_timeout := Some 5%Z |}.

(** A server of which only the home page answers. *)
Definition network_home_only (r : TestMcp.get_request) : TestMcp.get_outcome :=
  if String.eqb (TestMcp.get_url r) "http://localhost:8080"
  then TestMcp.Got 200 (Malformed "Expecting value: line 1 column 1 (char 0)")
  else TestMcp.Failed TestMcp.OtherError "Invalid response".

(** A server that answers the tool listing of [get_tools]. *)
Definition network_listing (r : TestMcp.get_request) : TestMcp.get_outcome :=
  TestMcp.Got 200 (Parsed get_tools).

(** No server is listening; the home page does not answer in time. *)
Definition network_refused (r : TestMcp.get_request) : TestMcp.get_outcome :=
  TestMcp.Failed TestMcp.ConnectionError "Connection refused".

Definition network_timeout (r : TestMcp.get_request) : TestMcp.get_outcome :=
  TestMcp.Failed TestMcp.ReadTimeout "Read timed out.".

(** An HTTP client that refuses the request before anything is transmitted,
    with an [httpx.RequestError]. *)
Definition network_refusing (req : request) : http_outcome :=
  TransportFailure "Illegal header value b'Bearer '".
(** * Properties *)

(** ** Text *)

Lemma append_assoc (a b c : string) : (a ++ b) ++ c = a ++ b ++ c.
Proof. induction a as [|x a IH]; simpl; [reflexivity | now rewrite IH]. Qed.

Lemma append_nil_r (a : string) : a ++ "" = a.
Proof. induction a as [|x a IH]; simpl; [reflexivity | now rewrite IH]. Qed.

Lemma append_not_empty (a b : string) : a <> "" -> a ++ b <> "".
Proof. destruct a; simpl; [congruence | discriminate]. Qed.

Lemma prefix_append (a b : string) : String.prefix a (a ++ b) = true.
Proof.
  induction a as [|x a IH]; simpl.
  - now destruct b.
  - destruct (ascii_dec x x) as [_|n]; [exact IH | now elim n].
Qed.

Lemma contains_prefix (n h : string) : String.prefix n h = true -> contains n h = true.
Proof. intros H. destruct h; cbn [contains]; rewrite H; reflexivity. Qed.

Lemma contains_append_l (n a h : string) :
  contains n h = true -> contains n (a ++ h) = true.
Proof.
  intros H. induction a as [|x a IH]; [exact H |].
  change (String x a ++ h) with (String x (a ++ h)). cbn [contains].
  rewrite IH. apply orb_true_r.
Qed.

(** A needle is found in any text built around it. *)
Lemma contains_middle (n a b : string) : contains n (a ++ n ++ b) = true.
Proof. apply contains_append_l, contains_prefix, prefix_append. Qed.

(** ** Blocks only append *)

Lemma appender_ret : appender (fun r => Ok r).
Proof. intros acc. simpl. now rewrite append_nil_r. Qed.

Lemma appender_append (t : string) : appender (fun r => Ok (r ++ t)).
Proof. intros acc. reflexivity. Qed.

Lemma appender_bind {A : Type} (c : py A) (k : A -> string -> py string) :
  (forall x, appender (k x)) -> appender (fun r => x <- c ;; k x r).
Proof. intros H acc. destruct c as [x|e]; simpl; [apply H | reflexivity]. Qed.

Lemma appender_then (f g : string -> py string) :
  appender f -> appender g -> appender (fun r => r' <- f r ;; g r').
Proof.
  intros Hf Hg acc. rewrite (Hf acc).
  destruct (f "") as [s|e]; simpl; [|reflexivity].
  rewrite (Hg (acc ++ s)), (Hg s).
  destruct (g "") as [s'|e]; simpl; [|reflexivity].
  now rewrite append_assoc.
Qed.

Lemma appender_if (b : bool) (f g : string -> py string) :
  appender f -> appender g -> appender (fun r => if b then f r else g r).
Proof. intros Hf Hg. destruct b; assumption. Qed.

Lemma appender_for_each (items : list json) (body : string -> json -> py string) :
  (forall x, appender (fun r => body r x)) -> appender (fun r => for_each items r body).
Proof.
  intros H. induction items as [|x items IH]; simpl.
  - apply appender_ret.
  - apply (appender_then (fun r => body r x) (fun r => for_each items r body)); auto.
Qed.

Ltac appender_step :=
  first
    [ lazymatch goal with
      | |- appender (fun r => Ok r) => exact appender_ret
      | |- appender (fun r => Ok (r ++ ?t)) => exact (appender_append t)
      | |- appender (fun r => for_each ?items r ?body) =>
          apply (appender_for_each items body); intro
      | |- appender (fun r => if ?b then @?f r else @?g r) =>
          apply (appender_if b f g); cbv beta
      end
    | lazymatch goal with
      | |- appender (fun r => bind ?c (fun x => @?k x r)) =>
          apply (appender_bind c k); intro; cbv beta
      end
    | lazymatch goal with
      | |- appender (fun r => bind (@?f r) ?g) =>
          apply (appender_then f g); cbv beta
      end
    | solve [auto with appender] ].

Ltac appender_block f := unfold f; repeat appender_step.

Create HintDb appender.

Lemma transaction_status_appends (data : json) : appender (fun r => transaction_status data r).
Proof. appender_block transaction_status. Qed.
#[local] Hint Resolve transaction_status_appends : appender.

Lemma transaction_risk_score_appends (data : json) : appender (fun r => transaction_risk_score data r).
Proof. appender_block transaction_risk_score. Qed.
#[local] Hint Resolve transaction_risk_score_appends : appender.

Lemma transaction_issue_appends (x : json) : appender (fun r => transaction_issue r x).
Proof. appender_block transaction_issue. Qed.
#[local] Hint Resolve transaction_issue_appends : appender.

Lemma transaction_issues_appends (data : json) : appender (fun r => transaction_issues data r).
Proof. appender_block transaction_issues. Qed.
#[local] Hint Resolve transaction_issues_appends : appender.

Lemma transaction_reference_appends (x : json) : appender (fun r => transaction_reference r x).
Proof. appender_block transaction_reference. Qed.
#[local] Hint Resolve transaction_reference_appends : appender.

Lemma transaction_references_appends (data : json) : appender (fun r => transaction_references data r).
Proof. appender_block transaction_references. Qed.
#[local] Hint Resolve transaction_references_appends : appender.

Lemma kyc_status_appends (data : json) : appender (fun r => kyc_status data r).
Proof. appender_block kyc_status. Qed.
#[local] Hint Resolve kyc_status_appends : appender.

Lemma kyc_date_appends (data : json) : appender (fun r => kyc_date data r).
Proof. appender_block kyc_date. Qed.
#[local] Hint Resolve kyc_date_appends : appender.

Lemma kyc_issue_appends (x : json) : appender (fun r => kyc_issue r x).
Proof. appender_block kyc_issue. Qed.
#[local] Hint Resolve kyc_issue_appends : appender.

Lemma kyc_identity_verification_appends (data : json) : appender (fun r => kyc_identity_verification data r).
Proof. appender_block kyc_identity_verification. Qed.
#[local] Hint Resolve kyc_identity_verification_appends : appender.

Lemma kyc_match_appends (x : json) : appender (fun r => kyc_match r x).
Proof. appender_block kyc_match. Qed.
#[local] Hint Resolve kyc_match_appends : appender.

Lemma kyc_aml_screening_appends (data : json) : appender (fun r => kyc_aml_screening data r).
Proof. appender_block kyc_aml_screening. Qed.
#[local] Hint Resolve kyc_aml_screening_appends : appender.

Lemma bullet_appends (x : json) : appender (fun r => bullet r x).
Proof. appender_block bullet. Qed.
#[local] Hint Resolve bullet_appends : appender.

Lemma kyc_required_actions_appends (data : json) : appender (fun r => kyc_required_actions data r).
Proof. appender_block kyc_required_actions. Qed.
#[local] Hint Resolve kyc_required_actions_appends : appender.

Lemma communication_type_appends (data : json) : appender (fun r => communication_type data r).
Proof. appender_block communication_type. Qed.
#[local] Hint Resolve communication_type_appends : appender.

Lemma communication_status_appends (data : json) : appender (fun r => communication_status data r).
Proof. appender_block communication_status. Qed.
#[local] Hint Resolve communication_status_appends : appender.

Lemma communication_sentiment_appends (data : json) : appender (fun r => communication_sentiment data r).
Proof. appender_block communication_sentiment. Qed.
#[local] Hint Resolve communication_sentiment_appends : appender.

Lemma communication_issue_appends (x : json) : appender (fun r => communication_issue r x).
Proof. appender_block communication_issue. Qed.
#[local] Hint Resolve communication_issue_appends : appender.

Lemma communication_issues_appends (data : json) : appender (fun r => communication_issues data r).
Proof. appender_block communication_issues. Qed.
#[local] Hint Resolve communication_issues_appends : appender.

Lemma communication_recommendations_appends (data : json) : appender (fun r => communication_recommendations data r).
Proof. appender_block communication_recommendations. Qed.
#[local] Hint Resolve communication_recommendations_appends : appender.

Lemma update_action_items_appends (data : json) : appender (fun r => update_action_items data r).
Proof. appender_block update_action_items. Qed.
#[local] Hint Resolve update_action_items_appends : appender.

Lemma regulatory_update_appends (x : json) : appender (fun r => regulatory_update r x).
Proof. appender_block regulatory_update. Qed.
#[local] Hint Resolve regulatory_update_appends : appender.

Lemma regulatory_updates_appends (data : json) : appender (fun r => regulatory_updates data r).
Proof. appender_block regulatory_updates. Qed.
#[local] Hint Resolve regulatory_updates_appends : appender.

Lemma report_summary_appends (data : json) : appender (fun r => report_summary data r).
Proof. appender_block report_summary. Qed.
#[local] Hint Resolve report_summary_appends : appender.

Lemma report_factor_appends (x : json) : appender (fun r => report_factor r x).
Proof. appender_block report_factor. Qed.
#[local] Hint Resolve report_factor_appends : appender.

Lemma report_risk_assessment_appends (data : json) : appender (fun r => report_risk_assessment data r).
Proof. appender_block report_risk_assessment. Qed.
#[local] Hint Resolve report_risk_assessment_appends : appender.

Lemma report_category_appends (x : json) : appender (fun r => report_category r x).
Proof. appender_block report_category. Qed.
#[local] Hint Resolve report_category_appends : appender.

Lemma report_compliance_status_appends (data : json) : appender (fun r => report_compliance_status data r).
Proof. appender_block report_compliance_status. Qed.
#[local] Hint Resolve report_compliance_status_appends : appender.

Lemma report_recommendations_appends (data : json) : appender (fun r => report_recommendations data r).
Proof. appender_block report_recommendations. Qed.
#[local] Hint Resolve report_recommendations_appends : appender.

Lemma identity_issues_appends (v : json) : appender (fun r => identity_issues v r).
Proof. appender_block identity_issues. Qed.

Lemma aml_matches_appends (v : json) : appender (fun r => aml_matches v r).
Proof. appender_block aml_matches. Qed.

Lemma risk_factors_appends (v : json) : appender (fun r => risk_factors v r).
Proof. appender_block risk_factors. Qed.

Lemma status_categories_appends (v : json) : appender (fun r => status_categories v r).
Proof. appender_block status_categories. Qed.

(** ** The structure of a report *)

Lemma sections_appends (call : tool_call) (data : json) :
  appender (fun r => sections call data r).
Proof.
  destruct call; unfold sections;
    [ appender_block analyze_transaction_sections
    | appender_block verify_customer_kyc_sections
    | appender_block analyze_communication_sections
    | appender_block get_regulatory_updates_sections
    | appender_block generate_compliance_report_sections ].
Qed.

(** A report is the error line of an error payload, or the preamble
    followed by the sections. *)
Lemma report_unfold (call : tool_call) (t : datetime) (data : json) :
  report call t data =
    (err <- py_in "error" data ;;
     if err then e <- py_getitem data "error" ;; Ok (error_prefix call ++ py_str e)
     else sections call data (preamble call t)).
Proof.
  destruct call; unfold report, sections, preamble; cbn [before_timestamp heading after_timestamp];
    [ unfold analyze_transaction_report | unfold verify_customer_kyc_report
    | unfold analyze_communication_report | unfold get_regulatory_updates_report
    | unfold generate_compliance_report_report ];
    destruct (py_in "error" data) as [[|]|e]; cbn [bind error_prefix]; try reflexivity;
    f_equal; rewrite ?append_assoc; reflexivity.
Qed.

(** ** Rendering returns on payloads of the expected shape *)

Lemma for_each_returns (items : list json) (body : string -> json -> py string) :
  (forall x, In x items -> forall acc, returns (body acc x)) ->
  forall acc, returns (for_each items acc body).
Proof.
  induction items as [|x items IH]; intros H acc; simpl.
  - now exists acc.
  - destruct (H x (or_introl eq_refl) acc) as [r Hr]. rewrite Hr. simpl.
    apply IH. intros y Hy. apply H. now right.
Qed.

Lemma for_each_list_of (p : json -> bool) (items : list json)
    (body : string -> json -> py string) :
  (forall x, p x = true -> forall acc, returns (body acc x)) ->
  forallb p items = true ->
  forall acc, returns (for_each items acc body).
Proof.
  intros Hbody Hall. apply for_each_returns. intros x Hx.
  apply Hbody. rewrite forallb_forall in Hall. now apply Hall.
Qed.

Ltac dict_ops := unfold in_and_truthy, py_in, py_getitem, py_get, has_key in *.

Ltac returns_done := solve [eexists; reflexivity].

Lemma transaction_issue_returns (x : json) :
  dict_with ["category"; "description"] x = true ->
  forall acc, returns (transaction_issue acc x).
Proof.
  destruct x as [| | | | | |fields]; try discriminate.
  unfold dict_with, dict_where, transaction_issue. cbn [forallb]. dict_ops.
  destruct (lookup "category" fields); try discriminate.
  destruct (lookup "description" fields); try discriminate.
  intros _ acc. cbn [bind].
  destruct (lookup "recommendation" fields); cbn [bind]; returns_done.
Qed.

Lemma transaction_reference_returns (x : json) :
  dict_with ["code"; "description"] x = true ->
  forall acc, returns (transaction_reference acc x).
Proof.
  destruct x as [| | | | | |fields]; try discriminate.
  unfold dict_with, dict_where, transaction_reference. cbn [forallb]. dict_ops.
  destruct (lookup "code" fields); try discriminate.
  destruct (lookup "description" fields); try discriminate.
  intros _ acc. cbn [bind]. returns_done.
Qed.

Lemma communication_issue_returns (x : json) :
  dict_with ["category"; "description"] x = true ->
  forall acc, returns (communication_issue acc x).
Proof.
  destruct x as [| | | | | |fields]; try discriminate.
  unfold dict_with, dict_where, communication_issue. cbn [forallb]. dict_ops.
  destruct (lookup "category" fields); try discriminate.
  destruct (lookup "description" fields); try discriminate.
  intros _ acc. cbn [bind].
  destruct (lookup "severity" fields); cbn [bind];
    destruct (lookup "context" fields); cbn [bind]; returns_done.
Qed.

Lemma report_factor_returns (x : json) :
  dict_with ["name"; "level"] x = true ->
  forall acc, returns (report_factor acc x).
Proof.
  destruct x as [| | | | | |fields]; try discriminate.
  unfold dict_with, dict_where, report_factor. cbn [forallb]. dict_ops.
  destruct (lookup "name" fields); try discriminate.
  destruct (lookup "level" fields); try discriminate.
  intros _ acc. cbn [bind].
  destruct (lookup "details" fields); cbn [bind]; returns_done.
Qed.

Lemma report_category_returns (x : json) :
  dict_with ["name"; "status"] x = true ->
  forall acc, returns (report_category acc x).
Proof.
  destruct x as [| | | | | |fields]; try discriminate.
  unfold dict_with, dict_where, report_category. cbn [forallb]. dict_ops.
  destruct (lookup "name" fields); try discriminate.
  destruct (lookup "status" fields); try discriminate.
  intros _ acc. cbn [bind].
  destruct (lookup "details" fields); cbn [bind]; returns_done.
Qed.

Lemma kyc_match_returns (x : json) :
  is_dict x = true -> forall acc, returns (kyc_match acc x).
Proof.
  destruct x as [| | | | | |fields]; try discriminate.
  intros _ acc. unfold kyc_match. dict_ops.
  destruct (lookup "list_name" fields); destruct (lookup "match_details" fields);
    cbn [bind]; returns_done.
Qed.

Lemma bullet_returns (x : json) (acc : string) : returns (bullet acc x).
Proof. unfold bullet. returns_done. Qed.

Lemma kyc_issue_returns (x : json) (acc : string) : returns (kyc_issue acc x).
Proof. unfold kyc_issue. returns_done. Qed.

(** A loop over a list whose elements satisfy [p] returns when its body
    returns on such elements. *)
Lemma loop_returns (p : json -> bool) (v : json) (body : string -> json -> py string) :
  (forall x, p x = true -> forall acc, returns (body acc x)) ->
  list_of p v = true ->
  forall acc, returns (items <- py_iter v ;; for_each items acc body).
Proof.
  intros Hbody Hv acc. destruct v as [| | | | |items|]; try discriminate.
  cbn [py_iter bind]. now apply (for_each_list_of p).
Qed.

Lemma is_list_list_of (v : json) : is_list v = true -> list_of (fun _ => true) v = true.
Proof.
  destruct v as [| | | | |items|]; try discriminate. intros _. cbn.
  induction items; [reflexivity | assumption].
Qed.

Lemma loop_returns_any (v : json) (body : string -> json -> py string) :
  (forall x acc, returns (body acc x)) ->
  is_list v = true ->
  forall acc, returns (items <- py_iter v ;; for_each items acc body).
Proof.
  intros Hbody Hv. apply (loop_returns (fun _ => true)); [auto | now apply is_list_list_of].
Qed.

(** Simple lines return on every mapping. *)
Ltac line_returns f :=
  intros; unfold f; dict_ops;
  match goal with
  | |- context [lookup ?k ?fields] => destruct (lookup k fields)
  end; cbn [bind]; returns_done.

Lemma transaction_status_returns fields acc : returns (transaction_status (JDict fields) acc).
Proof. line_returns transaction_status. Qed.

Lemma transaction_risk_score_returns fields acc :
  returns (transaction_risk_score (JDict fields) acc).
Proof. line_returns transaction_risk_score. Qed.

Lemma kyc_status_returns fields acc : returns (kyc_status (JDict fields) acc).
Proof. line_returns kyc_status. Qed.

Lemma kyc_date_returns fields acc : returns (kyc_date (JDict fields) acc).
Proof. line_returns kyc_date. Qed.

Lemma communication_type_returns fields acc : returns (communication_type (JDict fields) acc).
Proof. line_returns communication_type. Qed.

Lemma communication_status_returns fields acc :
  returns (communication_status (JDict fields) acc).
Proof. line_returns communication_status. Qed.

Lemma report_summary_returns fields acc : returns (report_summary (JDict fields) acc).
Proof. line_returns report_summary. Qed.

(** List sections. *)
Ltac list_section f key fields :=
  unfold f, optional; dict_ops;
  destruct (lookup key fields) as [v|]; cbn [bind]; [|intros; returns_done];
  intros H acc;
  destruct (py_truthy v); cbn [bind]; [|returns_done].

Lemma transaction_issues_returns fields :
  optional "issues" (list_of (dict_with ["category"; "description"])) fields = true ->
  forall acc, returns (transaction_issues (JDict fields) acc).
Proof.
  list_section transaction_issues "issues" fields.
  now apply (loop_returns _ _ _ transaction_issue_returns).
Qed.

Lemma transaction_references_returns fields :
  optional "regulatory_references" (list_of (dict_with ["code"; "description"])) fields = true ->
  forall acc, returns (transaction_references (JDict fields) acc).
Proof.
  list_section transaction_references "regulatory_references" fields.
  now apply (loop_returns _ _ _ transaction_reference_returns).
Qed.

Lemma kyc_required_actions_returns fields :
  optional "required_actions" is_list fields = true ->
  forall acc, returns (kyc_required_actions (JDict fields) acc).
Proof.
  list_section kyc_required_actions "required_actions" fields.
  now apply (loop_returns_any _ _ bullet_returns).
Qed.

Lemma communication_issues_returns fields :
  optional "issues" (list_of (dict_with ["category"; "description"])) fields = true ->
  forall acc, returns (communication_issues (JDict fields) acc).
Proof.
  list_section communication_issues "issues" fields.
  now apply (loop_returns _ _ _ communication_issue_returns).
Qed.

Lemma communication_recommendations_returns fields :
  optional "recommendations" is_list fields = true ->
  forall acc, returns (communication_recommendations (JDict fields) acc).
Proof.
  list_section communication_recommendations "recommendations" fields.
  now apply (loop_returns_any _ _ bullet_returns).
Qed.

Lemma report_recommendations_returns fields :
  optional "recommendations" is_list fields = true ->
  forall acc, returns (report_recommendations (JDict fields) acc).
Proof.
  list_section report_recommendations "recommendations" fields.
  now apply (loop_returns_any _ _ bullet_returns).
Qed.

Lemma update_action_items_returns fields :
  optional "action_items" is_list fields = true ->
  forall acc, returns (update_action_items (JDict fields) acc).
Proof.
  list_section update_action_items "action_items" fields.
  now apply (loop_returns_any _ _ bullet_returns).
Qed.

(** Nested sections. *)
Lemma kyc_identity_verification_returns fields :
  optional "identity_verification" (dict_where (optional "issues" is_list)) fields = true ->
  forall acc, returns (kyc_identity_verification (JDict fields) acc).
Proof.
  unfold kyc_identity_verification, optional. dict_ops.
  destruct (lookup "identity_verification" fields) as [[| | | | | |inner]|];
    cbn [bind dict_where]; try discriminate; [|intros; returns_done].
  destruct (lookup "status" inner); destruct (lookup "method" inner); cbn [bind];
    (destruct (lookup "issues" inner) as [v|]; cbn [bind]; [|intros; returns_done];
     intros H acc; destruct (py_truthy v); cbn [bind]; [|returns_done];
     now apply (loop_returns_any _ _ kyc_issue_returns)).
Qed.

Lemma kyc_aml_screening_returns fields :
  optional "aml_screening" (dict_where (optional "matches" (list_of is_dict))) fields = true ->
  forall acc, returns (kyc_aml_screening (JDict fields) acc).
Proof.
  unfold kyc_aml_screening, optional. dict_ops.
  destruct (lookup "aml_screening" fields) as [[| | | | | |inner]|];
    cbn [bind dict_where]; try discriminate; [|intros; returns_done].
  destruct (lookup "status" inner); destruct (lookup "risk_level" inner); cbn [bind];
    (destruct (lookup "matches" inner) as [v|]; cbn [bind]; [|intros; returns_done];
     intros H acc; destruct (py_truthy v); cbn [bind]; [|returns_done];
     now apply (loop_returns _ _ _ kyc_match_returns)).
Qed.

Lemma communication_sentiment_returns fields :
  optional "sentiment_analysis" is_dict fields = true ->
  forall acc, returns (communication_sentiment (JDict fields) acc).
Proof.
  unfold communication_sentiment, optional, is_dict. dict_ops.
  destruct (lookup "sentiment_analysis" fields) as [[| | | | | |inner]|];
    cbn [bind dict_where]; try discriminate; [|intros; returns_done].
  intros _ acc. destruct (lookup "overall" inner); cbn [bind]; returns_done.
Qed.

Lemma regulatory_update_returns (x : json) :
  dict_where (optional "action_items" is_list) x = true ->
  forall acc, returns (regulatory_update acc x).
Proof.
  destruct x as [| | | | | |fields]; try discriminate. cbn [dict_where].
  intros H acc. unfold regulatory_update. dict_ops.
  destruct (lookup "title" fields); destruct (lookup "date" fields);
    destruct (lookup "jurisdiction" fields); destruct (lookup "category" fields);
    destruct (lookup "summary" fields); cbn [bind];
    match goal with
    | |- context [update_action_items ?d ?a] =>
        destruct (update_action_items_returns fields H a) as [r Hr]; rewrite Hr
    end; cbn [bind]; returns_done.
Qed.

Lemma regulatory_updates_returns fields :
  optional "updates" (list_of (dict_where (optional "action_items" is_list))) fields = true ->
  forall acc, returns (regulatory_updates (JDict fields) acc).
Proof.
  list_section regulatory_updates "updates" fields.
  now apply (loop_returns _ _ _ regulatory_update_returns).
Qed.

Lemma report_risk_assessment_returns fields :
  optional "risk_assessment"
    (dict_where (optional "factors" (list_of (dict_with ["name"; "level"])))) fields = true ->
  forall acc, returns (report_risk_assessment (JDict fields) acc).
Proof.
  unfold report_risk_assessment, optional. dict_ops.
  destruct (lookup "risk_assessment" fields) as [[| | | | | |inner]|];
    cbn [bind dict_where]; try discriminate; [|intros; returns_done].
  destruct (lookup "overall" inner); cbn [bind];
    (destruct (lookup "factors" inner) as [v|]; cbn [bind]; [|intros; returns_done];
     intros H acc; destruct (py_truthy v); cbn [bind]; [|returns_done];
     now apply (loop_returns _ _ _ report_factor_returns)).
Qed.

Lemma report_compliance_status_returns fields :
  optional "compliance_status"
    (dict_where (optional "categories" (list_of (dict_with ["name"; "status"])))) fields = true ->
  forall acc, returns (report_compliance_status (JDict fields) acc).
Proof.
  unfold report_compliance_status, optional. dict_ops.
  destruct (lookup "compliance_status" fields) as [[| | | | | |inner]|];
    cbn [bind dict_where]; try discriminate; [|intros; returns_done].
  destruct (lookup "overall" inner); cbn [bind];
    (destruct (lookup "categories" inner) as [v|]; cbn [bind]; [|intros; returns_done];
     intros H acc; destruct (py_truthy v); cbn [bind]; [|returns_done];
     now apply (loop_returns _ _ _ report_category_returns)).
Qed.

(** Chaining blocks that return. *)
Lemma returns_bind {A B : Type} (c : py A) (k : A -> py B) :
  returns c -> (forall a, returns (k a)) -> returns (a <- c ;; k a).
Proof. intros [a ->] H. apply H. Qed.

Lemma returns_ok {A : Type} (a : A) : returns (Ok a : py A).
Proof. now exists a. Qed.

Ltac chain_returns :=
  repeat lazymatch goal with
         | |- returns (bind _ _) => apply returns_bind; [|intro]
         end.

Lemma sections_return (call : tool_call) (fields : list (string * json)) :
  success_shape call fields = true ->
  forall acc, returns (sections call (JDict fields) acc).
Proof.
  destruct call; cbn [success_shape sections];
    unfold transaction_shape, kyc_shape, communication_shape, updates_shape, report_shape;
    rewrite ?andb_true_iff; intros H acc.
  - destruct H as [H1 H2]. unfold analyze_transaction_sections.
    chain_returns;
      auto using transaction_status_returns, transaction_risk_score_returns,
        transaction_issues_returns, transaction_references_returns, returns_ok.
  - destruct H as [[H1 H2] H3]. unfold verify_customer_kyc_sections.
    chain_returns;
      auto using kyc_status_returns, kyc_date_returns, kyc_identity_verification_returns,
        kyc_aml_screening_returns, kyc_required_actions_returns, returns_ok.
  - destruct H as [[H1 H2] H3]. unfold analyze_communication_sections.
    chain_returns;
      auto using communication_type_returns, communication_status_returns,
        communication_sentiment_returns, communication_issues_returns,
        communication_recommendations_returns, returns_ok.
  - unfold get_regulatory_updates_sections.
    chain_returns;
      auto using regulatory_updates_returns, returns_ok.
  - destruct H as [[H1 H2] H3]. unfold generate_compliance_report_sections.
    chain_returns;
      auto using report_summary_returns, report_risk_assessment_returns,
        report_compliance_status_returns, report_recommendations_returns, returns_ok.
Qed.

(** A block that only appends and returns, returns its input extended. *)
Lemma appender_returns (f : string -> py string) (acc : string) :
  appender f -> returns (f acc) -> exists s, f "" = Ok s /\ f acc = Ok (acc ++ s).
Proof.
  intros Hf [r Hr]. rewrite (Hf acc) in Hr |- *.
  destruct (f "") as [s|e]; [|discriminate]. exists s. split; reflexivity.
Qed.

Lemma preamble_not_empty (call : tool_call) (t : datetime) : preamble call t <> "".
Proof. destruct call; discriminate. Qed.

Lemma error_prefix_not_empty (call : tool_call) : error_prefix call <> "".
Proof. destruct call; discriminate. Qed.

(** ** Totality of rendering (C1) *)

(** C1, as stated, fails: an [issues] entry without [category] makes
    [analyze_transaction] raise [KeyError], and a risk factor without
    [level] makes [generate_compliance_report] raise it; no report is
    produced. *)
Lemma missing_inner_key_raises :
  report (AnalyzeTransaction "TX123") sample_clock payload_issue_without_category
    = Raise (KeyError "category")
  /\ report (GenerateComplianceReport "E1" "summary") sample_clock payload_factor_without_level
    = Raise (KeyError "level").
Proof. split; reflexivity. Qed.

(** C1 (amended): for every error payload and every success payload of the
    shape of section 4.4 (list sections are lists, nested sections are
    mappings, list elements carry their non-optional keys), each of the five
    renderers returns a report, and the report is not empty. *)
Theorem report_returns_nonempty (call : tool_call) (t : datetime) (data : json) :
  upstream_result call data = true ->
  exists r, report call t data = Ok r /\ r <> "".
Proof.
  destruct data as [| | | | | |fields]; try discriminate.
  cbn [upstream_result]. intros H. rewrite report_unfold.
  unfold py_in, py_getitem, has_key in *.
  destruct (lookup "error" fields) as [e|]; cbn [bind].
  - eexists. split; [reflexivity|]. apply append_not_empty, error_prefix_not_empty.
  - cbn [orb] in H.
    destruct (appender_returns _ (preamble call t) (sections_appends call (JDict fields))
                (sections_return call fields H (preamble call t))) as [s [_ Hs]].
    exists (preamble call t ++ s). split; [exact Hs|].
    apply append_not_empty, preamble_not_empty.
Qed.

Lemma report_returns_nonempty_witness :
  upstream_result (AnalyzeTransaction "TX123") analyze_transaction_mock = true
  /\ exists r, report (AnalyzeTransaction "TX123") sample_clock analyze_transaction_mock = Ok r
               /\ r <> "".
Proof.
  split; [reflexivity|].
  apply (report_returns_nonempty (AnalyzeTransaction "TX123") sample_clock
           analyze_transaction_mock).
  reflexivity.
Defined.

(** ** Error payloads (C2, C10) *)

Lemma error_key_report (call : tool_call) (t : datetime)
    (fields : list (string * json)) (e : json) :
  lookup "error" fields = Some e ->
  report call t (JDict fields) = Ok (error_prefix call ++ py_str e).
Proof.
  intros H. rewrite report_unfold. unfold py_in, py_getitem, has_key.
  rewrite H. reflexivity.
Qed.

(** C2: an error payload, with or without [details] and whatever follows,
    renders as the single line made of the error prefix of the tool and the
    error message; an upstream that answers status 503 to [verify_customer_kyc]
    gives exactly the line of the specification. *)
Theorem error_payload_renders_error_line (call : tool_call) (t : datetime)
    (e : string) (rest : list (string * json))
    (cfg : config) (customer_id response_text : string) (response_body : parsed) :
  report call t (JDict [("error", JStr e)]) = Ok (error_prefix call ++ e)
  /\ report call t (JDict (("error", JStr e) :: rest)) = Ok (error_prefix call ++ e)
  /\ fst (verify_customer_kyc cfg
            {| DEVELOPMENT_MODE := None;
               network := fun _ => Responded {| status_code := 503;
                                                text := response_text;
                                                body := response_body |};
               now := t |}
            customer_id)
     = Ok "Error verifying customer KYC: HTTP error: 503".
Proof.
  split; [|split].
  - now apply (error_key_report call t _ (JStr e)).
  - now apply (error_key_report call t _ (JStr e)).
  - reflexivity.
Qed.

(** C10: a payload mapping that has the key [error] renders as the error
    line of the tool, whatever other keys it holds. *)
Theorem error_key_wins (call : tool_call) (t : datetime)
    (fields : list (string * json)) (e : json) :
  lookup "error" fields = Some e ->
  report call t (JDict fields) = Ok (error_prefix call ++ py_str e).
Proof. apply error_key_report. Qed.

Lemma error_key_wins_witness :
  lookup "error"
    [("compliance_status", JStr "COMPLIANT"); ("risk_score", JInt 25);
     ("issues", JList []); ("error", JStr "HTTP error: 500");
     ("details", JStr "Internal Server Error")] = Some (JStr "HTTP error: 500")
  /\ report (AnalyzeTransaction "TX123") sample_clock payload_error_with_success_keys
     = Ok "Error analyzing transaction: HTTP error: 500".
Proof.
  split; [reflexivity|].
  apply (error_key_wins (AnalyzeTransaction "TX123") sample_clock
           [("compliance_status", JStr "COMPLIANT"); ("risk_score", JInt 25);
            ("issues", JList []); ("error", JStr "HTTP error: 500");
            ("details", JStr "Internal Server Error")]
           (JStr "HTTP error: 500")).
  reflexivity.
Defined.

(** ** The upstream client (C3) *)

Lemma eqb_neq_false (a b : string) : a <> b -> String.eqb a b = false.
Proof. intros H. now apply String.eqb_neq. Qed.

(** C3: [make_api_request] puts every outcome in one shape. A method other
    than GET and POST gives the [Unsupported method] payload and sends
    nothing. Otherwise one request is sent: a response with a status
    outside 200-299 gives the [HTTP error] payload with the response text as
    details, a transport failure the [Request error] payload, any other
    failure (a body that is not JSON included) the [Unexpected error]
    payload, and a successful response its parsed body, unchanged. *)
Theorem make_api_request_classifies (cfg : config) (network : request -> http_outcome)
    (endpoint method : string) (params data : option json) :
  let req := http_request cfg endpoint method params data in
  let out := make_api_request cfg network endpoint method params data in
  (method <> "GET" -> method <> "POST" ->
   out = (error_payload ("Unsupported method: " ++ method), []))
  /\ (method = "GET" \/ method = "POST" ->
      snd out = [req]
      /\ (forall r, network req = Responded r -> is_success (status_code r) = false ->
          fst out = JDict [("error", JStr ("HTTP error: " ++ decimal (status_code r)));
                           ("details", JStr (text r))])
      /\ (forall m, network req = TransportFailure m ->
          fst out = error_payload ("Request error: " ++ m))
      /\ (forall m, network req = OtherFailure m ->
          fst out = error_payload ("Unexpected error: " ++ m))
      /\ (forall r m, network req = Responded r -> is_success (status_code r) = true ->
          body r = Malformed m ->
          fst out = error_payload ("Unexpected error: " ++ m))
      /\ (forall r v, network req = Responded r -> is_success (status_code r) = true ->
          body r = Parsed v ->
          fst out = v)).
Proof.
  intros req out. split.
  - intros Hget Hpost. unfold out, make_api_request.
    rewrite (eqb_neq_false _ _ Hget), (eqb_neq_false _ _ Hpost). reflexivity.
  - intros Hm.
    assert (Hout : out =
              (match (response <- send network req ;;
                      _ <- raise_for_status response ;;
                      response_json response) with
               | Ok v => v
               | Raise (HTTPStatusError r) =>
                   JDict [("error", JStr ("HTTP error: " ++ decimal (status_code r)));
                          ("details", JStr (text r))]
               | Raise (RequestError m) => error_payload ("Request error: " ++ m)
               | Raise (OtherException m) => error_payload ("Unexpected error: " ++ m)
               end, [req])).
    { unfold out, req, make_api_request, http_request.
      destruct Hm as [-> | ->]; reflexivity. }
    rewrite Hout. cbn [fst snd]. unfold send, raise_for_status, response_json.
    split; [reflexivity|].
    repeat split.
    + intros r Hr Hs. rewrite Hr. cbn [bind]. rewrite Hs. reflexivity.
    + intros m Hr. rewrite Hr. reflexivity.
    + intros m Hr. rewrite Hr. reflexivity.
    + intros r m Hr Hs Hb. rewrite Hr. cbn [bind]. rewrite Hs. cbn [bind]. rewrite Hb.
      reflexivity.
    + intros r v Hr Hs Hb. rewrite Hr. cbn [bind]. rewrite Hs. cbn [bind]. rewrite Hb.
      reflexivity.
Qed.

Lemma make_api_request_classifies_witness :
  make_api_request sample_config network_unavailable "customers/C1/kyc" "PUT" None None
    = (error_payload "Unsupported method: PUT", [])
  /\ make_api_request sample_config network_unavailable "customers/C1/kyc" "GET" None None
    = (JDict [("error", JStr "HTTP error: 503"); ("details", JStr "Service unavailable")],
       [http_request sample_config "customers/C1/kyc" "GET" None None]).
Proof.
  split.
  - apply (proj1 (make_api_request_classifies sample_config network_unavailable
                    "customers/C1/kyc" "PUT" None None)); discriminate.
  - destruct (proj2 (make_api_request_classifies sample_config network_unavailable
                       "customers/C1/kyc" "GET" None None) (or_introl eq_refl))
      as [Hsent [Hstatus _]].
    apply injective_projections; [|exact Hsent].
    apply (Hstatus {| status_code := 503; text := "Service unavailable";
                      body := Malformed "Expecting value: line 1 column 1 (char 0)" |});
      reflexivity.
Defined.

(** ** Development mode and the upstream requests (C6, C7) *)

Lemma sections_of_appender (call : tool_call) (data : json) (acc s : string) :
  sections call data "" = Ok s -> sections call data acc = Ok (acc ++ s).
Proof.
  intros H. rewrite (sections_appends call data acc). rewrite H. reflexivity.
Qed.

Lemma preamble_starts_with_heading (call : tool_call) (t : datetime) :
  exists rest, preamble call t = heading call ++ LF ++ rest.
Proof.
  destruct call; unfold preamble; cbn [before_timestamp];
    rewrite ?append_assoc; eexists; reflexivity.
Qed.

Lemma invoke_development (cfg : config) (w : world) (call : tool_call) :
  development_mode w = true ->
  invoke cfg w call = (report call (now w) (mock call), []).
Proof.
  intros H. destruct call; cbn [invoke mock report];
    unfold analyze_transaction, verify_customer_kyc, analyze_communication,
      get_regulatory_updates, generate_compliance_report;
    rewrite H; reflexivity.
Qed.

Lemma invoke_live (cfg : config) (w : world) (call : tool_call) :
  development_mode w = false ->
  invoke cfg w call =
    (report call (now w)
       (fst (make_api_request cfg (network w) (endpoint call) (http_method call)
               None (request_body call))),
     snd (make_api_request cfg (network w) (endpoint call) (http_method call)
            None (request_body call))).
Proof.
  intros H. destruct call; cbn [invoke report endpoint http_method request_body];
    unfold analyze_transaction, verify_customer_kyc, analyze_communication,
      get_regulatory_updates, generate_compliance_report;
    rewrite H; reflexivity.
Qed.

Lemma mock_sections (call : tool_call) : exists s, sections call (mock call) "" = Ok s.
Proof. destruct call; eexists; vm_compute; reflexivity. Qed.

(** C6: in development mode every tool sends no request upstream and
    returns a non-empty report that starts with its heading line. *)
Theorem development_mode_serves_mock (cfg : config) (w : world) (call : tool_call) :
  development_mode w = true ->
  exists rest,
    invoke cfg w call = (Ok (heading call ++ LF ++ rest), [])
    /\ heading call ++ LF ++ rest <> "".
Proof.
  intros H. rewrite (invoke_development cfg w call H), report_unfold.
  assert (Herr : py_in "error" (mock call) = Ok false) by (destruct call; reflexivity).
  rewrite Herr. cbn [bind].
  destruct (mock_sections call) as [s Hs].
  rewrite (sections_of_appender call (mock call) (preamble call (now w)) s Hs).
  destruct (preamble_starts_with_heading call (now w)) as [rest Hrest].
  exists (rest ++ s). rewrite Hrest, !append_assoc. split; [reflexivity|].
  destruct call; discriminate.
Qed.

Lemma development_mode_serves_mock_witness :
  development_mode world_development = true
  /\ exists rest,
       invoke sample_config world_development (VerifyCustomerKyc "C42")
         = (Ok ("## Customer KYC Verification" ++ LF ++ rest), [])
       /\ "## Customer KYC Verification" ++ LF ++ rest <> "".
Proof.
  split; [reflexivity|].
  apply (development_mode_serves_mock sample_config world_development
           (VerifyCustomerKyc "C42")).
  reflexivity.
Defined.

(** C7: outside development mode every tool sends exactly one request, the
    one of the table of section 6, and renders what the client returns. *)
Theorem live_mode_sends_request (cfg : config) (w : world) (call : tool_call) :
  development_mode w = false ->
  snd (invoke cfg w call) = [upstream_request cfg call]
  /\ fst (invoke cfg w call) =
       report call (now w)
         (fst (make_api_request cfg (network w) (endpoint call) (http_method call)
                 None (request_body call))).
Proof.
  intros H. rewrite (invoke_live cfg w call H). cbn [fst snd]. split; [|reflexivity].
  destruct call; reflexivity.
Qed.

Lemma live_mode_sends_request_witness :
  development_mode world_unavailable = false
  /\ snd (invoke sample_config world_unavailable (GenerateComplianceReport "E1" "summary"))
     = [{| req_method := "POST";
           req_url := "https://api.compliance-service.com/reports/generate";
           req_headers := [("Authorization", "Bearer secret");
                           ("Content-Type", "application/json");
                           ("Accept", "application/json")];
           req_params := None;
           req_json := Some (JDict [("entity_id", JStr "E1");
                                    ("report_type", JStr "summary")]);
           req_timeout := 30 |}].
Proof.
  split; [reflexivity|].
  apply (proj1 (live_mode_sends_request sample_config world_unavailable
                  (GenerateComplianceReport "E1" "summary") eq_refl)).
Defined.

(** ** The clock (C8) *)

Lemma zero_pad_two_digits (n : Z) :
  (0 <= n < 100)%Z -> two_digits (zero_pad 2 n) = true.
Proof.
  intros H.
  assert (Hall : forallb (fun k => two_digits (zero_pad 2 (Z.of_nat k))) (seq 0 100) = true)
    by (vm_compute; reflexivity).
  rewrite forallb_forall in Hall.
  rewrite <- (Z2Nat.id n) by lia. apply Hall, in_seq. lia.
Qed.

Lemma zero_pad_four_digits (n : Z) :
  (1000 <= n <= 9999)%Z -> four_digits (zero_pad 4 n) = true.
Proof.
  intros H.
  assert (Hall : forallb (fun k => four_digits (zero_pad 4 (Z.of_nat k)))
                   (seq (Z.to_nat 1000) (Z.to_nat 9000)) = true)
    by (vm_compute; reflexivity).
  rewrite forallb_forall in Hall.
  rewrite <- (Z2Nat.id n) by lia. apply Hall, in_seq. lia.
Qed.

Lemma strftime_format (t : datetime) :
  datetime_ok t = true -> matches_format "YYYY-MM-DD HH:MM:SS" (strftime t) = true.
Proof.
  unfold datetime_ok. rewrite !andb_true_iff, !Z.leb_le.
  intros [[[[[[[[[[[Hy1 Hy2] Hm1] Hm2] Hd1] Hd2] Hh1] Hh2] Hi1] Hi2] Hs1] Hs2].
  pose proof (zero_pad_four_digits (year t) (conj Hy1 Hy2)) as Y.
  pose proof (zero_pad_two_digits (month t) ltac:(lia)) as Mo.
  pose proof (zero_pad_two_digits (day t) ltac:(lia)) as D.
  pose proof (zero_pad_two_digits (hour t) ltac:(lia)) as Ho.
  pose proof (zero_pad_two_digits (minute t) ltac:(lia)) as Mi.
  pose proof (zero_pad_two_digits (second t) ltac:(lia)) as Se.
  unfold strftime.
  destruct (zero_pad 4 (year t)) as [|y1 [|y2 [|y3 [|y4 [|]]]]]; try discriminate.
  destruct (zero_pad 2 (month t)) as [|m1 [|m2 [|]]]; try discriminate.
  destruct (zero_pad 2 (day t)) as [|d1 [|d2 [|]]]; try discriminate.
  destruct (zero_pad 2 (hour t)) as [|h1 [|h2 [|]]]; try discriminate.
  destruct (zero_pad 2 (minute t)) as [|i1 [|i2 [|]]]; try discriminate.
  destruct (zero_pad 2 (second t)) as [|s1 [|s2 [|]]]; try discriminate.
  cbn [two_digits four_digits] in *.
  rewrite !andb_true_iff in *.
  destruct Y as [[[Y1 Y2] Y3] Y4], Mo as [M1 M2], D as [D1 D2], Ho as [H1 H2],
    Mi as [I1 I2], Se as [S1 S2].
  cbn. rewrite Y1, Y2, Y3, Y4, M1, M2, D1, D2, H1, H2, I1, I2, S1, S2. reflexivity.
Qed.

(** A report without an error is the preamble followed by text that the
    sections give on their own. *)
Lemma report_of_sections (call : tool_call) (t : datetime) (data : json) :
  report call t data =
    (err <- py_in "error" data ;;
     if err then e <- py_getitem data "error" ;; Ok (error_prefix call ++ py_str e)
     else s <- sections call data "" ;; Ok (preamble call t ++ s)).
Proof.
  rewrite report_unfold. destruct (py_in "error" data) as [[|]|e]; cbn [bind]; try reflexivity.
  apply (sections_appends call data).
Qed.

(** C8: a report is a function of the payload, the arguments and the text
    of the timestamp alone. Either it does not depend on the clock at all
    (an error line, an exception, or the report of [get_regulatory_updates],
    which has no timestamp), or it is a fixed text around the one timestamp;
    and the timestamp of a clock reading has the format YYYY-MM-DD HH:MM:SS. *)
Theorem report_depends_on_clock_by_timestamp (call : tool_call) (data : json)
    (t : datetime) :
  datetime_ok t = true ->
  matches_format "YYYY-MM-DD HH:MM:SS" (strftime t) = true
  /\ ((exists r, forall t', report call t' data = r)
      \/ (exists before rest,
            before_timestamp call = Some before
            /\ forall t', report call t' data = Ok (before ++ strftime t' ++ LF ++ rest)))
  /\ (forall t1 t2, strftime t1 = strftime t2 -> report call t1 data = report call t2 data).
Proof.
  intros Ht. split; [now apply strftime_format|]. split.
  - destruct (py_in "error" data) as [[|]|e] eqn:Herr.
    + left. eexists. intros t'. rewrite report_of_sections, Herr. cbn [bind]. reflexivity.
    + destruct (sections call data "") as [s|e] eqn:Hs.
      * destruct (before_timestamp call) as [before|] eqn:Hb.
        -- right. exists before.
           assert (Hafter : exists rest, after_timestamp call ++ s = LF ++ rest)
             by (destruct call; cbn [after_timestamp]; rewrite ?append_assoc;
                 eexists; reflexivity).
           destruct Hafter as [rest Hrest]. exists rest. split; [reflexivity|].
           intros t'. rewrite report_of_sections, Herr. cbn [bind]. rewrite Hs. cbn [bind].
           unfold preamble. rewrite Hb, !append_assoc, Hrest. reflexivity.
        -- left. eexists. intros t'. rewrite report_of_sections, Herr. cbn [bind].
           rewrite Hs. cbn [bind]. unfold preamble. rewrite Hb. reflexivity.
      * left. eexists. intros t'. rewrite report_of_sections, Herr. cbn [bind].
        rewrite Hs. cbn [bind]. reflexivity.
    + left. eexists. intros t'. rewrite report_of_sections, Herr. cbn [bind]. reflexivity.
  - intros t1 t2 Heq. rewrite !report_of_sections. unfold preamble. rewrite Heq.
    reflexivity.
Qed.

Lemma report_depends_on_clock_by_timestamp_witness :
  datetime_ok sample_clock = true
  /\ matches_format "YYYY-MM-DD HH:MM:SS" (strftime sample_clock) = true.
Proof.
  split; [reflexivity|].
  apply (proj1 (report_depends_on_clock_by_timestamp (AnalyzeTransaction "TX123")
                  analyze_transaction_mock sample_clock eq_refl)).
Defined.

(** ** Fallback texts (C4) *)

Lemma block_result (f : string -> py string) (acc : string) :
  appender f -> returns (f acc) -> exists s, f acc = Ok (acc ++ s).
Proof.
  intros Hf Hr. destruct (appender_returns f acc Hf Hr) as [s [_ Hs]]. now exists s.
Qed.

Lemma transaction_issues_fallback (fields : list (string * json)) (acc : string) :
  empty_or_absent "issues" fields = true ->
  transaction_issues (JDict fields) acc
    = Ok (acc ++ (LF ++ "### No compliance issues detected" ++ LF)).
Proof.
  unfold empty_or_absent, transaction_issues. dict_ops.
  destruct (lookup "issues" fields) as [[| | | | |[|]|]|]; try discriminate; reflexivity.
Qed.

Lemma communication_issues_fallback (fields : list (string * json)) (acc : string) :
  empty_or_absent "issues" fields = true ->
  communication_issues (JDict fields) acc
    = Ok (acc ++ (LF ++ "### No compliance issues detected" ++ LF)).
Proof.
  unfold empty_or_absent, communication_issues. dict_ops.
  destruct (lookup "issues" fields) as [[| | | | |[|]|]|]; try discriminate; reflexivity.
Qed.

Lemma regulatory_updates_fallback (fields : list (string * json)) (acc : string) :
  empty_or_absent "updates" fields = true ->
  regulatory_updates (JDict fields) acc
    = Ok (acc ++ ("No recent regulatory updates available." ++ LF)).
Proof.
  unfold empty_or_absent, regulatory_updates. dict_ops.
  destruct (lookup "updates" fields) as [[| | | | |[|]|]|]; try discriminate; reflexivity.
Qed.

Ltac next_block lem :=
  match goal with
  | |- context [bind (?f (JDict ?fields) ?acc) _] =>
      let s := fresh "s" in
      let E := fresh "E" in
      destruct (block_result (fun r => f (JDict fields) r) acc
                  ltac:(auto with appender) (lem acc)) as [s E];
      cbv beta in E; rewrite E; cbn [bind]
  end.

(** C4: on a success payload whose [issues] list is empty or absent,
    [analyze_transaction] and [analyze_communication] return a report that
    holds the text [No compliance issues detected]; on a success payload
    whose [updates] list is empty or absent, [get_regulatory_updates]
    returns a report that holds [No recent regulatory updates available.]. *)
Theorem empty_list_renders_fallback (call : tool_call) (key text : string)
    (t : datetime) (fields : list (string * json)) :
  fallback call = Some (key, text) ->
  success_payload call (JDict fields) = true ->
  empty_or_absent key fields = true ->
  exists r, report call t (JDict fields) = Ok r /\ contains text r = true.
Proof.
  intros Hf Hp He. cbn [success_payload] in Hp.
  apply andb_true_iff in Hp. destruct Hp as [Herr Hshape].
  rewrite report_unfold. cbn [py_in]. rewrite (negb_true_iff _) in Herr. rewrite Herr.
  cbn [bind].
  destruct call; cbn [fallback] in Hf; inversion Hf; subst key text; clear Hf;
    cbn [success_shape sections] in *.
  - unfold transaction_shape in Hshape. apply andb_true_iff in Hshape.
    destruct Hshape as [_ Hrefs]. unfold analyze_transaction_sections.
    next_block (transaction_status_returns fields).
    next_block (transaction_risk_score_returns fields).
    rewrite (transaction_issues_fallback fields _ He). cbn [bind].
    next_block (transaction_references_returns fields Hrefs).
    eexists. split; [reflexivity|].
    rewrite !append_assoc.
    apply contains_append_l, contains_append_l, contains_append_l. reflexivity.
  - unfold communication_shape in Hshape. rewrite !andb_true_iff in Hshape.
    destruct Hshape as [[Hsent _] Hrecs]. unfold analyze_communication_sections.
    next_block (communication_type_returns fields).
    next_block (communication_status_returns fields).
    next_block (communication_sentiment_returns fields Hsent).
    rewrite (communication_issues_fallback fields _ He). cbn [bind].
    next_block (communication_recommendations_returns fields Hrecs).
    eexists. split; [reflexivity|].
    rewrite !append_assoc.
    apply contains_append_l, contains_append_l, contains_append_l, contains_append_l.
    reflexivity.
  - unfold get_regulatory_updates_sections.
    rewrite (regulatory_updates_fallback fields _ He). cbn [bind].
    eexists. split; [reflexivity|].
    apply contains_append_l. reflexivity.
Qed.

Lemma empty_list_renders_fallback_witness :
  fallback (AnalyzeTransaction "TX123") = Some ("issues", "No compliance issues detected")
  /\ success_payload (AnalyzeTransaction "TX123") payload_without_issues = true
  /\ empty_or_absent "issues"
       [("compliance_status", JStr "COMPLIANT"); ("risk_score", JInt 10);
        ("regulatory_references",
         JList [JDict [("code", JStr "REG-123");
                       ("description",
                        JStr "High-value transaction verification requirements")]])] = true
  /\ exists r, report (AnalyzeTransaction "TX123") sample_clock payload_without_issues = Ok r
               /\ contains "No compliance issues detected" r = true.
Proof.
  repeat split.
  apply (empty_list_renders_fallback (AnalyzeTransaction "TX123") "issues"
           "No compliance issues detected" sample_clock
           [("compliance_status", JStr "COMPLIANT"); ("risk_score", JInt 10);
            ("regulatory_references",
             JList [JDict [("code", JStr "REG-123");
                           ("description",
                            JStr "High-value transaction verification requirements")]])]);
    reflexivity.
Defined.

(** ** Placeholders and omitted subsections (C5) *)

(** C5, as stated, fails: the absent fields of an update render as
    [Untitled Update], [Global], [General] and [No summary available]
    (only the date as [Unknown]), and the absent fields of a watchlist
    match render as [None]. *)
Lemma placeholders_other_than_unknown :
  report GetRegulatoryUpdates sample_clock payload_empty_update
    = Ok ("## Recent Regulatory Updates" ++ LF ++ LF
          ++ "### Untitled Update" ++ LF ++ LF
          ++ "**Date**: Unknown" ++ LF
          ++ "**Jurisdiction**: Global" ++ LF
          ++ "**Category**: General" ++ LF ++ LF
          ++ "No summary available" ++ LF ++ LF
          ++ LF ++ "---" ++ LF ++ LF)
  /\ report (VerifyCustomerKyc "C42") sample_clock payload_empty_match
     = Ok ("## Customer KYC Verification" ++ LF ++ LF
           ++ "**Customer ID**: C42" ++ LF
           ++ "**Verification Time**: 2025-03-15 09:05:00" ++ LF ++ LF
           ++ LF ++ "### AML Screening" ++ LF ++ LF
           ++ "- **Status**: Unknown" ++ LF
           ++ "- **Risk Level**: Unknown" ++ LF
           ++ "- **Watchlist Matches**:" ++ LF
           ++ "  - None: None" ++ LF).
Proof. split; reflexivity. Qed.

Lemma optional_section_absent (key : string) (block : json -> string -> py string)
    (fields : list (string * json)) (acc : string) :
  In (key, block) optional_sections ->
  lookup key fields = None ->
  block (JDict fields) acc = Ok acc.
Proof.
  intros Hin Habsent. unfold optional_sections in Hin. cbn [In] in Hin.
  repeat (destruct Hin as [Hin|Hin];
          [inversion Hin; subst key block; clear Hin;
           unfold transaction_status, transaction_risk_score, transaction_references,
             kyc_status, kyc_date, kyc_identity_verification, kyc_aml_screening,
             kyc_required_actions, communication_type, communication_status,
             communication_sentiment, communication_recommendations, update_action_items,
             report_summary, report_risk_assessment, report_compliance_status,
             report_recommendations;
           dict_ops; rewrite Habsent; reflexivity|]).
  contradiction.
Qed.

(** The lists of a nested mapping only append. *)
Lemma nested_list_appends (key : string) (block : json -> string -> py string)
    (v : json) :
  In (key, block) nested_lists -> appender (fun r => block v r).
Proof.
  intros Hin. unfold nested_lists in Hin. cbn [In] in Hin.
  repeat (destruct Hin as [Hin|Hin];
          [inversion Hin; subst key block; clear Hin;
           auto using identity_issues_appends, aml_matches_appends,
             risk_factors_appends, status_categories_appends,
             update_action_items_appends|]).
  contradiction.
Qed.

Lemma nested_list_absent (key : string) (block : json -> string -> py string)
    (fields : list (string * json)) (acc : string) :
  In (key, block) nested_lists ->
  lookup key fields = None ->
  block (JDict fields) acc = Ok acc.
Proof.
  intros Hin Habsent. unfold nested_lists in Hin. cbn [In] in Hin.
  repeat (destruct Hin as [Hin|Hin];
          [inversion Hin; subst key block; clear Hin;
           unfold identity_issues, aml_matches, risk_factors, status_categories,
             update_action_items;
           dict_ops; rewrite Habsent; reflexivity|]).
  contradiction.
Qed.

Ltac element_equation :=
  intros; dict_ops;
  repeat first
    [ match goal with
      | H : lookup ?k ?f = _ |- context [lookup ?k ?f] => rewrite H
      end
    | progress cbn [bind py_truthy shown_or] ];
  repeat match goal with
         | |- context [lookup ?k ?f] => destruct (lookup k f)
         end;
  cbn [bind shown_or optional_line py_str]; rewrite ?append_assoc; reflexivity.

(** C5 (amended): an absent optional field of a nested mapping renders as
    the default the code gives it, whatever else the mapping holds, its
    nested list included: [Unknown] for the status and method of
    [identity_verification], the status and risk level of [aml_screening],
    the overall value of [sentiment_analysis], [risk_assessment] and
    [compliance_status], and the date of an update; [Untitled Update],
    [Global], [General] and [No summary available] for the title,
    jurisdiction, category and summary of an update. An absent subsection
    adds no text, whatever else is there: a top-level section other than the
    issues and the updates, a nested list (which, when present, only adds
    text after the lines of the scalars), each optional line of a list
    element on its own. Nothing is stated on the fields of a watchlist
    match. *)
Theorem absent_fields_render_defaults :
  (forall key block fields acc,
      In (key, block) (optional_sections ++ nested_lists)%list ->
      lookup key fields = None ->
      block (JDict fields) acc = Ok acc)
  /\ (forall key block v acc r,
         In (key, block) nested_lists ->
         block v acc = Ok r ->
         exists lines, r = acc ++ lines)
  /\ (forall fields inner acc,
         lookup "identity_verification" fields = Some (JDict inner) ->
         kyc_identity_verification (JDict fields) acc
         = identity_issues (JDict inner)
             (acc ++ LF ++ "### Identity Verification" ++ LF ++ LF
              ++ "- **Status**: " ++ shown_or "Unknown" (lookup "status" inner) ++ LF
              ++ "- **Method**: " ++ shown_or "Unknown" (lookup "method" inner) ++ LF))
  /\ (forall fields inner acc,
         lookup "aml_screening" fields = Some (JDict inner) ->
         kyc_aml_screening (JDict fields) acc
         = aml_matches (JDict inner)
             (acc ++ LF ++ "### AML Screening" ++ LF ++ LF
              ++ "- **Status**: " ++ shown_or "Unknown" (lookup "status" inner) ++ LF
              ++ "- **Risk Level**: " ++ shown_or "Unknown" (lookup "risk_level" inner)
              ++ LF))
  /\ (forall fields inner acc,
         lookup "sentiment_analysis" fields = Some (JDict inner) ->
         communication_sentiment (JDict fields) acc
         = Ok (acc ++ "**Sentiment**: " ++ shown_or "Unknown" (lookup "overall" inner)
               ++ LF))
  /\ (forall fields inner acc,
         lookup "risk_assessment" fields = Some (JDict inner) ->
         report_risk_assessment (JDict fields) acc
         = risk_factors (JDict inner)
             (acc ++ "### Risk Assessment" ++ LF ++ LF
              ++ "**Overall Risk**: " ++ shown_or "Unknown" (lookup "overall" inner)
              ++ LF))
  /\ (forall fields inner acc,
         lookup "compliance_status" fields = Some (JDict inner) ->
         report_compliance_status (JDict fields) acc
         = status_categories (JDict inner)
             (acc ++ LF ++ "### Compliance Status" ++ LF ++ LF
              ++ "**Status**: " ++ shown_or "Unknown" (lookup "overall" inner)
              ++ LF ++ LF))
  /\ (forall fields acc,
         regulatory_update acc (JDict fields)
         = (result <- update_action_items (JDict fields)
                        (acc ++ "### " ++ shown_or "Untitled Update" (lookup "title" fields)
                         ++ LF ++ LF
                         ++ "**Date**: " ++ shown_or "Unknown" (lookup "date" fields) ++ LF
                         ++ "**Jurisdiction**: "
                         ++ shown_or "Global" (lookup "jurisdiction" fields) ++ LF
                         ++ "**Category**: " ++ shown_or "General" (lookup "category" fields)
                         ++ LF ++ LF
                         ++ shown_or "No summary available" (lookup "summary" fields)
                         ++ LF ++ LF) ;;
            Ok (result ++ LF ++ "---" ++ LF ++ LF)))
  /\ (forall fields category description acc,
         lookup "category" fields = Some category ->
         lookup "description" fields = Some description ->
         transaction_issue acc (JDict fields)
         = Ok (acc ++ "- **" ++ py_str category ++ "**: " ++ py_str description ++ LF
               ++ optional_line "  - Recommendation: " LF (lookup "recommendation" fields)))
  /\ (forall fields category description acc,
         lookup "category" fields = Some category ->
         lookup "description" fields = Some description ->
         communication_issue acc (JDict fields)
         = Ok (acc ++ "- **" ++ py_str category ++ "**: " ++ py_str description ++ LF
               ++ optional_line "  - Severity: " LF (lookup "severity" fields)
               ++ optional_line ("  - Context: " ++ DQUOTE) (DQUOTE ++ LF)
                    (lookup "context" fields)))
  /\ (forall fields name level acc,
         lookup "name" fields = Some name ->
         lookup "level" fields = Some level ->
         report_factor acc (JDict fields)
         = Ok (acc ++ "- **" ++ py_str name ++ "**: " ++ py_str level ++ LF
               ++ optional_line "  - " LF (lookup "details" fields)))
  /\ (forall fields name status acc,
         lookup "name" fields = Some name ->
         lookup "status" fields = Some status ->
         report_category acc (JDict fields)
         = Ok (acc ++ "- **" ++ py_str name ++ "**: " ++ py_str status ++ LF
               ++ optional_line "  - " LF (lookup "details" fields))).
Proof.
  split.
  { intros key block fields acc Hin Habsent. apply in_app_or in Hin.
    destruct Hin as [Hin|Hin].
    - exact (optional_section_absent key block fields acc Hin Habsent).
    - exact (nested_list_absent key block fields acc Hin Habsent). }
  split.
  { intros key block v acc r Hin Hr.
    pose proof (nested_list_appends key block v Hin acc) as Happ. cbv beta in Happ.
    rewrite Happ in Hr. destruct (block v "") as [lines|e]; [|discriminate Hr].
    cbn [bind] in Hr. inversion Hr. now exists lines. }
  repeat split.
  - unfold kyc_identity_verification, identity_issues. element_equation.
  - unfold kyc_aml_screening, aml_matches. element_equation.
  - unfold communication_sentiment. element_equation.
  - unfold report_risk_assessment, risk_factors. element_equation.
  - unfold report_compliance_status, status_categories. element_equation.
  - unfold regulatory_update, update_action_items. element_equation.
  - unfold transaction_issue. element_equation.
  - unfold communication_issue. element_equation.
  - unfold report_factor. element_equation.
  - unfold report_category. element_equation.
Qed.

Lemma absent_fields_render_defaults_witness :
  kyc_required_actions (JDict [("verification_status", JStr "VERIFIED")]) "text" = Ok "text"
  /\ kyc_identity_verification payload_issues_only ""
     = Ok (LF ++ "### Identity Verification" ++ LF ++ LF
           ++ "- **Status**: Unknown" ++ LF
           ++ "- **Method**: Unknown" ++ LF
           ++ "- **Issues**:" ++ LF
           ++ "  - Name mismatch" ++ LF)
  /\ communication_issue "" issue_with_context_only
     = Ok ("- **Disclosure**: Missing required risk disclosure" ++ LF
           ++ "  - Context: " ++ DQUOTE ++ "high-yield fund" ++ DQUOTE ++ LF).
Proof.
  destruct absent_fields_render_defaults
    as [Hsection [_ [Hidentity [_ [_ [_ [_ [_ [_ [Hissue _]]]]]]]]]].
  split; [|split].
  - apply (Hsection "required_actions" kyc_required_actions
             [("verification_status", JStr "VERIFIED")] "text").
    + cbn. tauto.
    + reflexivity.
  - exact (Hidentity
             [("identity_verification", JDict [("issues", JList [JStr "Name mismatch"])])]
             [("issues", JList [JStr "Name mismatch"])] "" eq_refl).
  - exact (Hissue
             [("category", JStr "Disclosure");
              ("description", JStr "Missing required risk disclosure");
              ("context", JStr "high-yield fund")]
             (JStr "Disclosure") (JStr "Missing required risk disclosure") ""
             eq_refl eq_refl).
Defined.

(** ** The summary report of development mode (C9) *)

(** C9: in development mode [generate_compliance_report] called with
    entity [E1] and report type [summary] sends nothing upstream and
    returns the report headed [## Summary Compliance Report], whose
    recommendations section has exactly three bullets. *)
Theorem summary_report_in_development_mode (cfg : config) (w : world) :
  development_mode w = true ->
  generate_compliance_report cfg w "E1" "summary"
  = (Ok ("## Summary Compliance Report" ++ LF ++ LF
         ++ "**Entity ID**: E1" ++ LF
         ++ "**Report Time**: " ++ strftime (now w) ++ LF
         ++ "**Report Type**: Summary" ++ LF ++ LF
         ++ summary_report_sections
         ++ LF ++ "### Recommendations" ++ LF ++ LF
         ++ summary_report_recommendations),
     [])
  /\ bullet_count summary_report_recommendations = 3.
Proof.
  intros H. split; [|reflexivity].
  change (generate_compliance_report cfg w "E1" "summary")
    with (invoke cfg w (GenerateComplianceReport "E1" "summary")).
  rewrite (invoke_development cfg w _ H), report_of_sections.
  change (py_in "error" (mock (GenerateComplianceReport "E1" "summary")))
    with (Ok false : py bool).
  cbn [bind].
  assert (Hs : sections (GenerateComplianceReport "E1" "summary")
                 (mock (GenerateComplianceReport "E1" "summary")) ""
               = Ok (summary_report_sections
                     ++ LF ++ "### Recommendations" ++ LF ++ LF
                     ++ summary_report_recommendations))
    by (vm_compute; reflexivity).
  rewrite Hs. cbn [bind]. unfold preamble.
  cbn [before_timestamp after_timestamp heading].
  rewrite !append_assoc. reflexivity.
Qed.

Lemma summary_report_in_development_mode_witness :
  development_mode world_development = true
  /\ fst (generate_compliance_report sample_config world_development "E1" "summary")
     = Ok ("## Summary Compliance Report" ++ LF ++ LF
           ++ "**Entity ID**: E1" ++ LF
           ++ "**Report Time**: 2025-03-15 09:05:00" ++ LF
           ++ "**Report Type**: Summary" ++ LF ++ LF
           ++ summary_report_sections
           ++ LF ++ "### Recommendations" ++ LF ++ LF
           ++ summary_report_recommendations).
Proof.
  split; [reflexivity|].
  rewrite (proj1 (summary_report_in_development_mode sample_config world_development
                    eq_refl)).
  reflexivity.
Defined.

(** * Further properties *)

(** ** The client and the renderers together *)

Lemma make_api_request_of_call (cfg : config) (net : request -> http_outcome)
    (call : tool_call) :
  make_api_request cfg net (endpoint call) (http_method call) None (request_body call)
  = (payload_of_outcome (net (upstream_request cfg call)), [upstream_request cfg call]).
Proof.
  assert (H : forall req : request,
             match (response <- send net req ;;
                    _ <- raise_for_status response ;;
                    response_json response) with
             | Ok v => v
             | Raise (HTTPStatusError r) =>
                 JDict [("error", JStr ("HTTP error: " ++ decimal (status_code r)));
                        ("details", JStr (text r))]
             | Raise (RequestError m) => error_payload ("Request error: " ++ m)
             | Raise (OtherException m) => error_payload ("Unexpected error: " ++ m)
             end = payload_of_outcome (net req)).
  { intros req. unfold send, raise_for_status, response_json, payload_of_outcome.
    destruct (net req) as [r|m|m]; cbn [bind]; try reflexivity.
    destruct (is_success (status_code r)); cbn [bind]; [|reflexivity].
    destruct (body r); reflexivity. }
  destruct call; unfold make_api_request, upstream_request, http_request;
    cbn [endpoint http_method request_body String.eqb Ascii.eqb Bool.eqb fst snd];
    rewrite H; reflexivity.
Qed.

Lemma invoke_live_outcome (cfg : config) (w : world) (call : tool_call) :
  development_mode w = false ->
  invoke cfg w call
  = (report call (now w) (payload_of_outcome (network w (upstream_request cfg call))),
     [upstream_request cfg call]).
Proof.
  intros H. rewrite (invoke_live cfg w call H), make_api_request_of_call. reflexivity.
Qed.

Lemma failure_payload (o : http_outcome) (m : string) :
  failure_message o = Some m ->
  exists rest, payload_of_outcome o = JDict (("error", JStr m) :: rest).
Proof.
  unfold failure_message, payload_of_outcome, error_payload.
  destruct o as [r|m'|m'].
  - destruct (is_success (status_code r)).
    + destruct (body r); [discriminate|]. intros H. inversion H. eexists. reflexivity.
    + intros H. inversion H. eexists. reflexivity.
  - intros H. inversion H. eexists. reflexivity.
  - intros H. inversion H. eexists. reflexivity.
Qed.

(** X1: outside development mode, when the upstream fails (a status outside
    200-299, a transport failure, any other failure, a body that is not
    JSON), every tool returns its error line with the message of the client
    and raises nothing; one request was sent. *)
Theorem upstream_failure_gives_error_line (cfg : config) (w : world)
    (call : tool_call) (m : string) :
  development_mode w = false ->
  failure_message (network w (upstream_request cfg call)) = Some m ->
  invoke cfg w call = (Ok (error_prefix call ++ m), [upstream_request cfg call]).
Proof.
  intros Hlive Hfail. rewrite (invoke_live_outcome cfg w call Hlive).
  destruct (failure_payload _ _ Hfail) as [rest Hp]. rewrite Hp.
  now rewrite (error_key_report call (now w) _ (JStr m)).
Qed.

Lemma upstream_failure_gives_error_line_witness :
  development_mode world_down = false
  /\ failure_message (network world_down
                        (upstream_request sample_config (AnalyzeCommunication "M7")))
     = Some "Request error: All connection attempts failed"
  /\ invoke sample_config world_down (AnalyzeCommunication "M7")
     = (Ok "Error analyzing communication: Request error: All connection attempts failed",
        [upstream_request sample_config (AnalyzeCommunication "M7")]).
Proof.
  split; [reflexivity|]. split; [reflexivity|].
  apply (upstream_failure_gives_error_line sample_config world_down
           (AnalyzeCommunication "M7")
           "Request error: All connection attempts failed"); reflexivity.
Defined.

(** X2: outside development mode a response with a status from 200 to 299
    and a JSON body is rendered as that body, whatever the status and the
    text; so a tool in development mode returns the report of a live
    upstream that answers the canned payload. *)
Theorem success_renders_parsed_body (cfg : config) (w : world) (call : tool_call)
    (r : response) (v : json) :
  development_mode w = false ->
  network w (upstream_request cfg call) = Responded r ->
  is_success (status_code r) = true ->
  body r = Parsed v ->
  invoke cfg w call = (report call (now w) v, [upstream_request cfg call])
  /\ (v = mock call ->
      forall w', development_mode w' = true -> now w' = now w ->
                 fst (invoke cfg w' call) = fst (invoke cfg w call)).
Proof.
  intros Hlive Hnet Hs Hb.
  assert (Hinv : invoke cfg w call
                 = (report call (now w) v, [upstream_request cfg call])).
  { rewrite (invoke_live_outcome cfg w call Hlive), Hnet.
    unfold payload_of_outcome. rewrite Hs, Hb. reflexivity. }
  split; [exact Hinv|].
  intros Hv w' Hdev Hnow. rewrite Hinv, (invoke_development cfg w' call Hdev), Hnow, Hv.
  reflexivity.
Qed.

Lemma success_renders_parsed_body_witness :
  fst (invoke sample_config world_development (VerifyCustomerKyc "C42"))
  = fst (invoke sample_config (world_mock (VerifyCustomerKyc "C42")) (VerifyCustomerKyc "C42")).
Proof.
  apply (proj2 (success_renders_parsed_body sample_config
                  (world_mock (VerifyCustomerKyc "C42")) (VerifyCustomerKyc "C42")
                  {| status_code := 200; text := "";
                     body := Parsed (mock (VerifyCustomerKyc "C42")) |}
                  (mock (VerifyCustomerKyc "C42"))
                  eq_refl eq_refl eq_refl eq_refl) eq_refl world_development eq_refl eq_refl).
Defined.

(** ** Payloads that are not mappings *)

Ltac non_dict_block f :=
  intros data acc H; unfold f, in_and_truthy;
  destruct data as [| | | | s | items | fields]; try discriminate H;
  cbn [py_in bind]; try (left; reflexivity);
  match goal with
  | |- context [contains ?k s] => destruct (contains k s)
  | |- context [existsb ?p items] => destruct (existsb p items)
  end;
  cbn [bind py_getitem]; first [left; reflexivity | right; reflexivity].

Lemma transaction_status_non_dict : as_on_empty transaction_status.
Proof. non_dict_block transaction_status. Qed.
Lemma transaction_risk_score_non_dict : as_on_empty transaction_risk_score.
Proof. non_dict_block transaction_risk_score. Qed.
Lemma transaction_issues_non_dict : as_on_empty transaction_issues.
Proof. non_dict_block transaction_issues. Qed.
Lemma transaction_references_non_dict : as_on_empty transaction_references.
Proof. non_dict_block transaction_references. Qed.
Lemma kyc_status_non_dict : as_on_empty kyc_status.
Proof. non_dict_block kyc_status. Qed.
Lemma kyc_date_non_dict : as_on_empty kyc_date.
Proof. non_dict_block kyc_date. Qed.
Lemma kyc_identity_verification_non_dict : as_on_empty kyc_identity_verification.
Proof. non_dict_block kyc_identity_verification. Qed.
Lemma kyc_aml_screening_non_dict : as_on_empty kyc_aml_screening.
Proof. non_dict_block kyc_aml_screening. Qed.
Lemma kyc_required_actions_non_dict : as_on_empty kyc_required_actions.
Proof. non_dict_block kyc_required_actions. Qed.
Lemma communication_type_non_dict : as_on_empty communication_type.
Proof. non_dict_block communication_type. Qed.
Lemma communication_status_non_dict : as_on_empty communication_status.
Proof. non_dict_block communication_status. Qed.
Lemma communication_sentiment_non_dict : as_on_empty communication_sentiment.
Proof. non_dict_block communication_sentiment. Qed.
Lemma communication_issues_non_dict : as_on_empty communication_issues.
Proof. non_dict_block communication_issues. Qed.
Lemma communication_recommendations_non_dict : as_on_empty communication_recommendations.
Proof. non_dict_block communication_recommendations. Qed.
Lemma regulatory_updates_non_dict : as_on_empty regulatory_updates.
Proof. non_dict_block regulatory_updates. Qed.
Lemma report_summary_non_dict : as_on_empty report_summary.
Proof. non_dict_block report_summary. Qed.
Lemma report_risk_assessment_non_dict : as_on_empty report_risk_assessment.
Proof. non_dict_block report_risk_assessment. Qed.
Lemma report_compliance_status_non_dict : as_on_empty report_compliance_status.
Proof. non_dict_block report_compliance_status. Qed.
Lemma report_recommendations_non_dict : as_on_empty report_recommendations.
Proof. non_dict_block report_recommendations. Qed.

(** A block of the chain, then the rest of the chain. *)
Lemma as_on_empty_then (f : json -> string -> py string)
    (g : json -> string -> py string) :
  as_on_empty f -> as_on_empty g ->
  as_on_empty (fun data acc => result <- f data acc ;; g data result).
Proof.
  intros Hf Hg data acc H. cbv beta.
  destruct (Hf data acc H) as [E|E]; rewrite E; [left; reflexivity|].
  destruct (f (JDict []) acc) as [r|e]; cbn [bind]; [|right; reflexivity].
  apply Hg, H.
Qed.

Lemma as_on_empty_ok : as_on_empty (fun _ acc => Ok acc).
Proof. intros data acc _. right. reflexivity. Qed.

Lemma sections_non_dict (call : tool_call) : as_on_empty (sections call).
Proof.
  destruct call; unfold sections.
  - unfold analyze_transaction_sections.
    repeat (apply as_on_empty_then;
            [first [exact transaction_status_non_dict | exact transaction_risk_score_non_dict
                   | exact transaction_issues_non_dict
                   | exact transaction_references_non_dict]|]).
    exact as_on_empty_ok.
  - unfold verify_customer_kyc_sections.
    repeat (apply as_on_empty_then;
            [first [exact kyc_status_non_dict | exact kyc_date_non_dict
                   | exact kyc_identity_verification_non_dict
                   | exact kyc_aml_screening_non_dict
                   | exact kyc_required_actions_non_dict]|]).
    exact as_on_empty_ok.
  - unfold analyze_communication_sections.
    repeat (apply as_on_empty_then;
            [first [exact communication_type_non_dict | exact communication_status_non_dict
                   | exact communication_sentiment_non_dict
                   | exact communication_issues_non_dict
                   | exact communication_recommendations_non_dict]|]).
    exact as_on_empty_ok.
  - unfold get_regulatory_updates_sections.
    repeat (apply as_on_empty_then; [exact regulatory_updates_non_dict|]).
    exact as_on_empty_ok.
  - unfold generate_compliance_report_sections.
    repeat (apply as_on_empty_then;
            [first [exact report_summary_non_dict | exact report_risk_assessment_non_dict
                   | exact report_compliance_status_non_dict
                   | exact report_recommendations_non_dict]|]).
    exact as_on_empty_ok.
Qed.

Lemma report_scalar (call : tool_call) (t : datetime) (data : json) :
  is_container data = false -> report call t data = Raise TypeError.
Proof.
  intros H. rewrite report_unfold.
  destruct data; try discriminate H; reflexivity.
Qed.

(** X3: a response with a JSON body that is null, a boolean or a number
    makes every tool raise [TypeError]: outside development mode the
    exception escapes the tool, after the one request was sent. *)
Theorem scalar_body_raises_type_error (cfg : config) (w : world) (call : tool_call)
    (r : response) (v : json) :
  development_mode w = false ->
  network w (upstream_request cfg call) = Responded r ->
  is_success (status_code r) = true ->
  body r = Parsed v ->
  is_container v = false ->
  invoke cfg w call = (Raise TypeError, [upstream_request cfg call]).
Proof.
  intros Hlive Hnet Hs Hb Hv.
  rewrite (invoke_live_outcome cfg w call Hlive), Hnet.
  unfold payload_of_outcome. rewrite Hs, Hb, (report_scalar call (now w) v Hv).
  reflexivity.
Qed.

Lemma scalar_body_raises_type_error_witness :
  invoke sample_config world_number (AnalyzeTransaction "TX123")
  = (Raise TypeError, [upstream_request sample_config (AnalyzeTransaction "TX123")]).
Proof.
  apply (scalar_body_raises_type_error sample_config world_number
           (AnalyzeTransaction "TX123")
           {| status_code := 200; text := "42"; body := Parsed (JInt 42) |} (JInt 42));
    reflexivity.
Defined.

(** X4: a payload that is not a mapping (a string, a list, a number, null)
    is never rendered for what it holds: the renderer raises [TypeError],
    or returns the report of the empty mapping. *)
Theorem non_mapping_payload_renders_nothing (call : tool_call) (t : datetime)
    (data : json) :
  is_dict data = false ->
  report call t data = Raise TypeError
  \/ report call t data = report call t (JDict []).
Proof.
  intros H. rewrite !report_unfold.
  destruct data as [| | | | s | items | fields]; try discriminate H;
    try (left; reflexivity).
  - cbn [py_in has_key lookup]. destruct (contains "error" s); cbn [bind py_getitem].
    + left. reflexivity.
    + apply (sections_non_dict call (JStr s)). reflexivity.
  - cbn [py_in has_key lookup]. destruct (existsb (is_str "error") items);
      cbn [bind py_getitem].
    + left. reflexivity.
    + apply (sections_non_dict call (JList items)). reflexivity.
Qed.

Lemma non_mapping_payload_renders_nothing_witness :
  is_dict (JList [JStr "ok"]) = false
  /\ (report GetRegulatoryUpdates sample_clock (JList [JStr "ok"]) = Raise TypeError
      \/ report GetRegulatoryUpdates sample_clock (JList [JStr "ok"])
         = report GetRegulatoryUpdates sample_clock (JDict [])).
Proof.
  split; [reflexivity|].
  apply (non_mapping_payload_renders_nothing GetRegulatoryUpdates sample_clock
           (JList [JStr "ok"])).
  reflexivity.
Defined.

(** ** Error lines and success reports *)

Lemma prefix_empty (s : string) : String.prefix "" s = true.
Proof. now destruct s. Qed.

(** X5: a report that is returned starts with [Error ] exactly when the
    payload has the key [error]; a caller can tell an error line from a
    success report, which starts with its heading, by its first characters. *)
Theorem error_line_iff_error_key (call : tool_call) (t : datetime) (data : json)
    (r : string) :
  report call t data = Ok r ->
  (String.prefix "Error " r = true <-> py_in "error" data = Ok true)
  /\ (String.prefix "## " r = true <-> py_in "error" data = Ok false).
Proof.
  rewrite report_of_sections.
  destruct (py_in "error" data) as [[|]|e]; cbn [bind]; [| |discriminate].
  - destruct (py_getitem data "error") as [v|e]; cbn [bind]; [|discriminate].
    intros H. inversion H. subst r.
    destruct call; cbn; split; split; intros; first [reflexivity | congruence | apply prefix_empty].
  - destruct (sections call data "") as [s|e]; cbn [bind]; [|discriminate].
    intros H. inversion H. subst r.
    destruct call; cbn; split; split; intros; first [reflexivity | congruence | apply prefix_empty].
Qed.

Lemma error_line_iff_error_key_witness :
  report (AnalyzeTransaction "TX123") sample_clock payload_error_with_success_keys
  = Ok "Error analyzing transaction: HTTP error: 500"
  /\ (String.prefix "Error " "Error analyzing transaction: HTTP error: 500" = true
      <-> py_in "error" payload_error_with_success_keys = Ok true).
Proof.
  split; [reflexivity|].
  apply (proj1 (error_line_iff_error_key (AnalyzeTransaction "TX123") sample_clock
                  payload_error_with_success_keys
                  "Error analyzing transaction: HTTP error: 500" eq_refl)).
Defined.

(** ** The keys a tool reads *)

Ltac unfold_renderers :=
  unfold report, analyze_transaction_report, verify_customer_kyc_report,
    analyze_communication_report, get_regulatory_updates_report,
    generate_compliance_report_report,
    analyze_transaction_sections, verify_customer_kyc_sections,
    analyze_communication_sections, get_regulatory_updates_sections,
    generate_compliance_report_sections,
    transaction_status, transaction_risk_score, transaction_issues,
    transaction_references, kyc_status, kyc_date, kyc_identity_verification,
    kyc_aml_screening, kyc_required_actions, communication_type, communication_status,
    communication_sentiment, communication_issues, communication_recommendations,
    regulatory_updates, report_summary, report_risk_assessment,
    report_compliance_status, report_recommendations.

Ltac rewrite_lookups H f :=
  repeat match goal with
         | |- context [lookup ?k f] =>
             rewrite (H k) by (cbn; tauto)
         end.

(** X6: a report depends on the payload only through the top-level keys the
    tool reads: two mappings that agree on those keys render the same, so
    further keys, the order of the items and the [details] of an error are
    without effect. *)
Theorem report_reads_its_keys_only (call : tool_call) (t : datetime)
    (fields fields' : list (string * json)) :
  (forall k, In k (keys_read call) -> lookup k fields = lookup k fields') ->
  report call t (JDict fields) = report call t (JDict fields').
Proof.
  intros H. destruct call; cbn [keys_read] in H; unfold_renderers; dict_ops;
    rewrite_lookups H fields; reflexivity.
Qed.

Lemma report_reads_its_keys_only_witness :
  report (AnalyzeTransaction "TX123") sample_clock payload_with_unread_field
  = report (AnalyzeTransaction "TX123") sample_clock
      (JDict [("risk_score", JInt 10); ("compliance_status", JStr "COMPLIANT")]).
Proof.
  apply (report_reads_its_keys_only (AnalyzeTransaction "TX123") sample_clock
           [("request_id", JStr "a1b2c3"); ("compliance_status", JStr "COMPLIANT");
            ("risk_score", JInt 10)]
           [("risk_score", JInt 10); ("compliance_status", JStr "COMPLIANT")]).
  intros k Hk. cbn in Hk.
  repeat (destruct Hk as [Hk|Hk]; [subst k; reflexivity|]). contradiction.
Defined.

(** ** Which exceptions a renderer can raise *)

Lemma raises_only_ok {A : Type} (P : exn -> Prop) (a : A) : raises_only P (Ok a : py A).
Proof. intros e H. discriminate H. Qed.

Lemma raises_only_bind {A B : Type} (P : exn -> Prop) (c : py A) (k : A -> py B) :
  raises_only P c -> (forall a, c = Ok a -> raises_only P (k a)) ->
  raises_only P (a <- c ;; k a).
Proof.
  intros Hc Hk e. destruct c as [a|e']; cbn [bind].
  - now apply Hk.
  - intros H. inversion H. subst e'. now apply Hc.
Qed.

Lemma raises_only_for_each (P : exn -> Prop) (items : list json)
    (body : string -> json -> py string) :
  (forall x acc, raises_only P (body acc x)) ->
  forall acc, raises_only P (for_each items acc body).
Proof.
  intros H. induction items as [|x items IH]; intros acc; cbn [for_each].
  - apply raises_only_ok.
  - apply raises_only_bind; [apply H | intros r _; apply IH].
Qed.

Lemma py_in_raises (P : exn -> Prop) (k : string) (v : json) :
  P TypeError -> raises_only P (py_in k v).
Proof. intros HP e. destruct v; cbn; intros H; inversion H; assumption. Qed.

Lemma py_iter_raises (P : exn -> Prop) (v : json) :
  P TypeError -> raises_only P (py_iter v).
Proof. intros HP e. destruct v; cbn; intros H; inversion H; assumption. Qed.

Lemma py_get_raises (P : exn -> Prop) (v : json) (k : string) (d : json) :
  P AttributeError -> raises_only P (py_get v k d).
Proof.
  intros HP e. destruct v as [| | | | | |fields]; cbn; try (intros H; inversion H; assumption).
  destruct (lookup k fields); discriminate.
Qed.

Lemma py_getitem_raises (P : exn -> Prop) (v : json) (k : string) :
  P TypeError -> P (KeyError k) -> raises_only P (py_getitem v k).
Proof.
  intros HT HK e. destruct v as [| | | | | |fields]; cbn;
    try (intros H; inversion H; assumption).
  destruct (lookup k fields); intros H; inversion H. assumption.
Qed.

(** A subscript behind the membership test of the same key raises no
    [KeyError]. *)
Lemma py_getitem_guarded (P : exn -> Prop) (v : json) (k : string) :
  P TypeError -> py_in k v = Ok true -> raises_only P (py_getitem v k).
Proof.
  intros HT Hin e. destruct v as [| | | | | |fields]; cbn;
    try (intros H; inversion H; assumption).
  cbn in Hin. unfold has_key in Hin. destruct (lookup k fields); discriminate.
Qed.

Lemma in_and_truthy_guard (k : string) (v : json) :
  in_and_truthy k v = Ok true -> py_in k v = Ok true.
Proof.
  unfold in_and_truthy. destruct (py_in k v) as [[|]|e]; cbn [bind];
    [reflexivity | discriminate | discriminate].
Qed.

Lemma in_and_truthy_raises (P : exn -> Prop) (k : string) (v : json) :
  P TypeError -> raises_only P (in_and_truthy k v).
Proof.
  intros HT. unfold in_and_truthy. apply raises_only_bind; [now apply py_in_raises|].
  intros [|] Hin; [|apply raises_only_ok].
  apply raises_only_bind; [now apply py_getitem_guarded | intros; apply raises_only_ok].
Qed.

Ltac raises_step :=
  lazymatch goal with
  | |- raises_only _ (Ok _) => apply raises_only_ok
  | |- raises_only _ (bind _ _) => apply raises_only_bind; [|intros ? ?]
  | |- raises_only _ (if ?b then _ else _) => destruct b
  | |- raises_only _ (for_each _ _ _) => apply raises_only_for_each; intros ? ?
  | |- raises_only _ (py_in _ _) => apply py_in_raises; exact I
  | |- raises_only _ (py_get _ _ _) => apply py_get_raises; exact I
  | |- raises_only _ (py_iter _) => apply py_iter_raises; exact I
  | |- raises_only _ (in_and_truthy _ _) => apply in_and_truthy_raises; exact I
  | |- raises_only _ (py_getitem _ _) =>
      first [ apply py_getitem_guarded;
              [exact I | first [assumption | apply in_and_truthy_guard; assumption]]
            | apply py_getitem_raises; [exact I | cbn; tauto] ]
  | |- raises_only _ (?f _ _) => unfold f
  end.

(** X7: the only [KeyError] a renderer can raise is on a key of a list
    element that it subscripts without a guard (category, description and
    code for [analyze_transaction]; category and description for
    [analyze_communication]; name, level and status for
    [generate_compliance_report]); [verify_customer_kyc] and
    [get_regulatory_updates] raise none, and no top-level key raises one. *)
Theorem key_error_only_on_unguarded_keys (call : tool_call) (t : datetime)
    (data : json) (k : string) :
  report call t data = Raise (KeyError k) -> In k (unguarded_keys call).
Proof.
  intros H.
  assert (Hall : raises_only (key_error_within (unguarded_keys call)) (report call t data)).
  { destruct call; cbn [unguarded_keys report];
      [ unfold analyze_transaction_report, analyze_transaction_sections
      | unfold verify_customer_kyc_report, verify_customer_kyc_sections
      | unfold analyze_communication_report, analyze_communication_sections
      | unfold get_regulatory_updates_report, get_regulatory_updates_sections
      | unfold generate_compliance_report_report, generate_compliance_report_sections ];
      repeat raises_step. }
  exact (Hall (KeyError k) H).
Qed.

Lemma key_error_only_on_unguarded_keys_witness :
  report (AnalyzeTransaction "TX123") sample_clock payload_issue_without_category
  = Raise (KeyError "category")
  /\ In "category" (unguarded_keys (AnalyzeTransaction "TX123")).
Proof.
  split; [reflexivity|].
  apply (key_error_only_on_unguarded_keys (AnalyzeTransaction "TX123") sample_clock
           payload_issue_without_category "category").
  reflexivity.
Defined.

(** ** Loops over list sections *)

Lemma returns_bind_iff {A B : Type} (c : py A) (k : A -> py B) :
  returns (a <- c ;; k a) <-> exists a, c = Ok a /\ returns (k a).
Proof.
  destruct c as [a|e]; cbn [bind]; split.
  - intros H. now exists a.
  - intros [a' [H Hk]]. inversion H. now subst a'.
  - intros [b H]. discriminate H.
  - intros [a [H _]]. discriminate H.
Qed.

Lemma for_each_returns_iff (p : json -> bool) (body : string -> json -> py string) :
  (forall x acc, returns (body acc x) <-> p x = true) ->
  forall items acc, returns (for_each items acc body) <-> forallb p items = true.
Proof.
  intros Hbody. induction items as [|x items IH]; intros acc; cbn [for_each forallb].
  - split; [reflexivity | intros _; now exists acc].
  - rewrite returns_bind_iff, andb_true_iff. split.
    + intros [r [Hr Hrest]]. split.
      * apply (Hbody x acc). now exists r.
      * now apply (IH r).
    + intros [Hx Hrest]. destruct (proj2 (Hbody x acc) Hx) as [r Hr].
      exists r. split; [exact Hr | now apply IH].
Qed.

Lemma not_returns_raise {A : Type} (e : exn) : ~ returns (Raise e : py A).
Proof. intros [a H]. discriminate H. Qed.

Ltac body_iff f lem :=
  intros x acc; split; [|intros H; now apply lem];
  destruct x as [| | | | | |fields];
  try (unfold f; cbn [py_getitem bind]; intros H; now apply not_returns_raise in H);
  unfold f, dict_with, dict_where; cbn [forallb]; dict_ops;
  repeat match goal with
         | |- context [lookup ?k fields] => destruct (lookup k fields)
         end;
  cbn [bind andb]; intros H; first [reflexivity | now apply not_returns_raise in H].

Lemma transaction_issue_returns_iff (x : json) (acc : string) :
  returns (transaction_issue acc x) <-> dict_with ["category"; "description"] x = true.
Proof. revert x acc. body_iff transaction_issue transaction_issue_returns. Qed.

Lemma transaction_reference_returns_iff (x : json) (acc : string) :
  returns (transaction_reference acc x) <-> dict_with ["code"; "description"] x = true.
Proof. revert x acc. body_iff transaction_reference transaction_reference_returns. Qed.

Lemma communication_issue_returns_iff (x : json) (acc : string) :
  returns (communication_issue acc x) <-> dict_with ["category"; "description"] x = true.
Proof. revert x acc. body_iff communication_issue communication_issue_returns. Qed.

Lemma report_factor_returns_iff (x : json) (acc : string) :
  returns (report_factor acc x) <-> dict_with ["name"; "level"] x = true.
Proof. revert x acc. body_iff report_factor report_factor_returns. Qed.

Lemma report_category_returns_iff (x : json) (acc : string) :
  returns (report_category acc x) <-> dict_with ["name"; "status"] x = true.
Proof. revert x acc. body_iff report_category report_category_returns. Qed.

(** X8: each loop over a list section returns exactly when every element is
    a mapping with the two keys the loop subscripts: category and
    description for the issues, code and description for the regulatory
    references, name and level for the risk factors, name and status for
    the compliance categories. One element without them, anywhere in the
    list, makes the loop raise. *)
Theorem loops_return_iff_elements_have_keys (items : list json) (acc : string) :
  (returns (for_each items acc transaction_issue)
   <-> forallb (dict_with ["category"; "description"]) items = true)
  /\ (returns (for_each items acc transaction_reference)
      <-> forallb (dict_with ["code"; "description"]) items = true)
  /\ (returns (for_each items acc communication_issue)
      <-> forallb (dict_with ["category"; "description"]) items = true)
  /\ (returns (for_each items acc report_factor)
      <-> forallb (dict_with ["name"; "level"]) items = true)
  /\ (returns (for_each items acc report_category)
      <-> forallb (dict_with ["name"; "status"]) items = true).
Proof.
  repeat split;
    first [ apply (for_each_returns_iff _ _ transaction_issue_returns_iff)
          | apply (for_each_returns_iff _ _ transaction_reference_returns_iff)
          | apply (for_each_returns_iff _ _ communication_issue_returns_iff)
          | apply (for_each_returns_iff _ _ report_factor_returns_iff)
          | apply (for_each_returns_iff _ _ report_category_returns_iff) ].
Qed.

(** ** Bullet lists *)

Lemma for_each_bullet (items : list json) (acc : string) :
  for_each items acc bullet = Ok (acc ++ bullet_lines items).
Proof.
  revert acc. induction items as [|x items IH]; intros acc; cbn [for_each bullet_lines].
  - now rewrite append_nil_r.
  - unfold bullet at 1. cbn [bind]. rewrite IH, !append_assoc. reflexivity.
Qed.

(** X9: the four bullet sections (required actions, the two recommendation
    lists, the action items of an update) write their heading and one bullet
    per item of what the field iterates over, in order and without
    truncation; for a field that holds a string instead of a list that is
    one bullet per character. *)
Theorem bullet_section_lists_every_item (key heading : string)
    (section : json -> string -> py string) (fields : list (string * json))
    (v : json) (items : list json) (acc : string) :
  In (key, heading, section) bullet_sections ->
  lookup key fields = Some v ->
  py_truthy v = true ->
  py_iter v = Ok items ->
  section (JDict fields) acc = Ok (acc ++ heading ++ bullet_lines items).
Proof.
  intros Hin Hk Ht Hi. unfold bullet_sections in Hin. cbn [In] in Hin.
  repeat (destruct Hin as [Hin|Hin];
          [inversion Hin; subst key heading section; clear Hin;
           unfold kyc_required_actions, communication_recommendations,
             update_action_items, report_recommendations;
           dict_ops; rewrite Hk; cbn [bind]; rewrite Ht; cbn [bind]; rewrite Hi;
           cbn [bind]; rewrite for_each_bullet, !append_assoc; reflexivity|]).
  contradiction.
Qed.

Lemma bullet_section_lists_every_item_witness :
  report_recommendations (JDict [("recommendations", JStr "KYC")]) ""
  = Ok (LF ++ "### Recommendations" ++ LF ++ LF
        ++ "- K" ++ LF ++ "- Y" ++ LF ++ "- C" ++ LF).
Proof.
  apply (bullet_section_lists_every_item "recommendations"
           (LF ++ "### Recommendations" ++ LF ++ LF) report_recommendations
           [("recommendations", JStr "KYC")] (JStr "KYC")
           [JStr "K"; JStr "Y"; JStr "C"] "").
  - cbn. tauto.
  - reflexivity.
  - reflexivity.
  - reflexivity.
Defined.

(** ** The started process *)

Lemma last_app_singleton {A : Type} (l : list A) (x d : A) :
  last (l ++ [x])%list d = x.
Proof.
  induction l as [|y l IH]; [reflexivity|].
  cbn [app]. destruct (l ++ [x])%list eqn:E.
  - destruct l; discriminate E.
  - cbn [last]. cbn [last] in IH. exact IH.
Qed.

Lemma last_app_cons {A : Type} (l r : list A) (x d : A) :
  last (l ++ x :: r)%list d = last (x :: r) d.
Proof.
  induction l as [|y l IH]; [reflexivity|].
  cbn [app]. destruct (l ++ x :: r)%list eqn:E.
  - destruct l; discriminate E.
  - rewrite <- IH. reflexivity.
Qed.

Ltac last_line := rewrite ?app_assoc; rewrite last_app_cons; reflexivity.

Lemma report_mock_heading (call : tool_call) (t : datetime) :
  exists rest, report call t (mock call) = Ok (heading call ++ LF ++ rest).
Proof.
  rewrite report_unfold.
  assert (Herr : py_in "error" (mock call) = Ok false) by (destruct call; reflexivity).
  rewrite Herr. cbn [bind].
  destruct (mock_sections call) as [s Hs].
  rewrite (sections_of_appender call (mock call) (preamble call t) s Hs).
  destruct (preamble_starts_with_heading call t) as [rest Hrest].
  exists (rest ++ s). now rewrite Hrest, !append_assoc.
Qed.

Lemma development_mode_world_of (s : startup) (net : request -> http_outcome)
    (t : datetime) :
  development_mode (world_of s net t)
  = env_truthy (getenv "DEVELOPMENT_MODE" (environment s)).
Proof. reflexivity. Qed.

Lemma development_mode_main_block (env : environ) (args : arguments)
    (net : request -> http_outcome) (t : datetime) :
  development_mode (world_of (main_block env args) net t)
  = arg_dev args || env_truthy (getenv "DEVELOPMENT_MODE" env).
Proof.
  rewrite development_mode_world_of. unfold main_block.
  destruct (arg_dev args); reflexivity.
Qed.

(** X10: started with [--dev], whatever the environment holds, the block
    under [__main__] sets DEVELOPMENT_MODE to [1] and prints the notice of
    development mode; every tool called afterwards sends no request upstream
    and returns the report of its canned payload, which starts with its
    heading line. *)
Theorem dev_flag_serves_mocks (env : environ) (args : arguments)
    (net : request -> http_outcome) (t : datetime) (call : tool_call) :
  arg_dev args = true ->
  let s := main_block env args in
  getenv "DEVELOPMENT_MODE" (environment s) = Some "1"
  /\ last (printed s) "" = "Running in development mode with mock data"
  /\ invoke (constants s) (world_of s net t) call = (report call t (mock call), [])
  /\ exists rest, report call t (mock call) = Ok (heading call ++ LF ++ rest).
Proof.
  intros Hdev s.
  assert (H : development_mode (world_of s net t) = true)
    by (unfold s; rewrite development_mode_main_block, Hdev; reflexivity).
  split; [|split; [|split]].
  - unfold s, main_block. rewrite Hdev. reflexivity.
  - unfold s, main_block. rewrite Hdev. cbn [printed snd]. apply last_app_singleton.
  - rewrite (invoke_development _ _ call H). reflexivity.
  - apply report_mock_heading.
Qed.

Lemma dev_flag_serves_mocks_witness :
  getenv "DEVELOPMENT_MODE" (environment (main_block environ_zero arguments_dev)) = Some "1"
  /\ invoke (constants (main_block environ_zero arguments_dev))
       (world_of (main_block environ_zero arguments_dev) network_down sample_clock)
       GetRegulatoryUpdates
     = (report GetRegulatoryUpdates sample_clock get_regulatory_updates_mock, []).
Proof.
  destruct (dev_flag_serves_mocks environ_zero arguments_dev network_down sample_clock
              GetRegulatoryUpdates eq_refl) as [Hset [_ [Hinvoke _]]].
  split; [exact Hset | exact Hinvoke].
Defined.

(** X11: the warning on the missing key is decided at import, from the
    environment alone: it is printed exactly when the key is unset or empty
    and DEVELOPMENT_MODE is unset or empty, whether or not [--dev] is given;
    with [--dev] and neither variable set the process prints the warning
    and then the notice of development mode. *)
Theorem key_warning_ignores_dev_flag (env : environ) (args : arguments) :
  (In API_KEY_WARNING (printed (main_block env args))
   <-> API_KEY (load_config env) = ""
       /\ env_truthy (getenv "DEVELOPMENT_MODE" env) = false)
  /\ (arg_dev args = true ->
      getenv "COMPLIANCE_API_KEY" env = None ->
      getenv "DEVELOPMENT_MODE" env = None ->
      printed (main_block env args)
      = [API_KEY_WARNING; "Running in development mode with mock data"]).
Proof.
  split.
  - unfold main_block, import_output, API_KEY_WARNING.
    destruct (arg_dev args); cbn [snd];
      destruct (String.eqb_spec (API_KEY (load_config env)) "") as [Hk|Hk];
      destruct (env_truthy (getenv "DEVELOPMENT_MODE" env));
      cbn [andb negb app In printed snd]; intuition congruence.
  - intros Hdev Hkey Hmode. unfold main_block, import_output, load_config.
    rewrite Hdev, Hkey, Hmode. reflexivity.
Qed.

Lemma key_warning_ignores_dev_flag_witness :
  printed (main_block environ_empty arguments_dev)
  = [API_KEY_WARNING; "Running in development mode with mock data"].
Proof.
  apply (proj2 (key_warning_ignores_dev_flag environ_empty arguments_dev));
    reflexivity.
Defined.

(** X12: in the started process a tool sends nothing upstream exactly when
    [--dev] was given or DEVELOPMENT_MODE holds a non-empty value, whatever
    the value (0 and false included); otherwise it sends its one request,
    to the base URL and with the key read at import. *)
Theorem mode_selection (env : environ) (args : arguments)
    (net : request -> http_outcome) (t : datetime) (call : tool_call) :
  let s := main_block env args in
  (snd (invoke (constants s) (world_of s net t) call) = []
   <-> arg_dev args = true \/ env_truthy (getenv "DEVELOPMENT_MODE" env) = true)
  /\ (arg_dev args = false ->
      env_truthy (getenv "DEVELOPMENT_MODE" env) = false ->
      snd (invoke (constants s) (world_of s net t) call)
      = [upstream_request (load_config env) call]).
Proof.
  intros s.
  pose proof (development_mode_main_block env args net t) as Hmode. fold s in Hmode.
  split.
  - destruct (development_mode (world_of s net t)) eqn:Hd.
    + rewrite (invoke_development _ _ call Hd). cbn [snd]. split; [|reflexivity].
      intros _. symmetry in Hmode. apply orb_true_iff in Hmode. exact Hmode.
    + rewrite (invoke_live_outcome _ _ call Hd). cbn [snd]. split; [discriminate|].
      intros H. apply orb_true_iff in H. rewrite H in Hmode. discriminate Hmode.
  - intros Hdev Henv. rewrite Hdev, Henv in Hmode. cbn in Hmode.
    rewrite (invoke_live_outcome _ _ call Hmode). reflexivity.
Qed.

Lemma mode_selection_witness :
  snd (invoke (constants (main_block environ_zero default_arguments))
         (world_of (main_block environ_zero default_arguments) network_down sample_clock)
         (AnalyzeTransaction "TX123")) = [].
Proof.
  apply (proj1 (mode_selection environ_zero default_arguments network_down sample_clock
                  (AnalyzeTransaction "TX123"))).
  right. reflexivity.
Defined.

(** X13: the server makes no check of the key. With COMPLIANCE_API_KEY
    unset or empty and no development mode the import prints the warning and
    nothing else changes: every tool still builds its one request, whose
    header [Authorization] is [Bearer ] followed by no token, and hands it
    to the HTTP client; what the tool returns is the report of what the
    client makes of that request. When the client refuses it with a request
    error, the tool returns its error line with the message of the client. *)
Theorem missing_key_reaches_client (env : environ) (args : arguments)
    (net : request -> http_outcome) (t : datetime) (call : tool_call) :
  API_KEY (load_config env) = "" ->
  arg_dev args = false ->
  env_truthy (getenv "DEVELOPMENT_MODE" env) = false ->
  let s := main_block env args in
  let req := upstream_request (constants s) call in
  printed s = [API_KEY_WARNING]
  /\ req_headers req = [("Authorization", "Bearer ");
                        ("Content-Type", "application/json");
                        ("Accept", "application/json")]
  /\ invoke (constants s) (world_of s net t) call
     = (report call t (payload_of_outcome (net req)), [req])
  /\ (forall m, net req = TransportFailure m ->
      invoke (constants s) (world_of s net t) call
      = (Ok (error_prefix call ++ "Request error: " ++ m), [req])).
Proof.
  intros Hkey Hdev Henv s req.
  assert (Hmode : development_mode (world_of s net t) = false).
  { unfold s. rewrite development_mode_main_block, Hdev, Henv. reflexivity. }
  assert (Hinvoke : invoke (constants s) (world_of s net t) call
                    = (report call t (payload_of_outcome (net req)), [req])).
  { rewrite (invoke_live_outcome _ _ call Hmode). reflexivity. }
  split; [|split; [|split]].
  - unfold s, main_block, import_output. rewrite Hkey, Hdev, Henv. reflexivity.
  - unfold req, s, main_block. cbn [constants]. unfold upstream_request, http_request.
    rewrite Hkey. destruct call; reflexivity.
  - exact Hinvoke.
  - intros m Hm. rewrite Hinvoke, Hm. cbn [payload_of_outcome]. unfold error_payload.
    now rewrite (error_key_report call t _ (JStr ("Request error: " ++ m))).
Qed.

Lemma missing_key_reaches_client_witness :
  printed (main_block environ_empty default_arguments) = [API_KEY_WARNING]
  /\ invoke (constants (main_block environ_empty default_arguments))
       (world_of (main_block environ_empty default_arguments) network_refusing sample_clock)
       GetRegulatoryUpdates
     = (Ok "Error fetching regulatory updates: Request error: Illegal header value b'Bearer '",
        [upstream_request (load_config environ_empty) GetRegulatoryUpdates]).
Proof.
  destruct (missing_key_reaches_client environ_empty default_arguments network_refusing
              sample_clock GetRegulatoryUpdates eq_refl eq_refl eq_refl)
    as [Hprinted [_ [_ Hrefused]]].
  split; [exact Hprinted|].
  exact (Hrefused "Illegal header value b'Bearer '" eq_refl).
Defined.

(** ** The smoke test *)

(** X14: the verdict of [test_mcp_server] is decided by the home page
    alone: two servers that answer the first request alike get the same
    verdict, and when the home page answers 200 the test returns [True] and
    ends on the line of success, whatever the tool listing and the SSE
    endpoint do. *)
Theorem smoke_test_verdict_is_the_home_page (net net' : TestMcp.get_request -> TestMcp.get_outcome)
    (base_url : string) :
  (net (home_request base_url) = net' (home_request base_url) ->
   snd (TestMcp.test_mcp_server net base_url) = snd (TestMcp.test_mcp_server net' base_url))
  /\ (forall p, net (home_request base_url) = TestMcp.Got 200 p ->
      snd (TestMcp.test_mcp_server net base_url) = TestMcp.Returned true
      /\ last (fst (TestMcp.test_mcp_server net base_url)) (TestMcp.Printed "")
         = TestMcp.Printed (LF ++ "✨ MCP server test completed successfully!")).
Proof.
  unfold TestMcp.test_mcp_server. fold (home_request base_url). split.
  - intros H. rewrite <- H.
    destruct (net (home_request base_url)) as [status p|[| |] m]; try reflexivity.
    destruct (Z.eqb status 200); reflexivity.
  - intros p H. rewrite H. cbn [Z.eqb Pos.eqb fst snd]. split; [reflexivity|].
    rewrite !app_assoc. apply last_app_singleton.
Qed.

Lemma smoke_test_verdict_is_the_home_page_witness :
  snd (TestMcp.test_mcp_server network_home_only "http://localhost:8080")
  = TestMcp.Returned true.
Proof.
  apply (proj2 (smoke_test_verdict_is_the_home_page network_home_only network_home_only
                  "http://localhost:8080")
           (Malformed "Expecting value: line 1 column 1 (char 0)")).
  reflexivity.
Defined.

Lemma requests_of_app (a b : list TestMcp.event) :
  requests_of (a ++ b) = (requests_of a ++ requests_of b)%list.
Proof. apply flat_map_app. Qed.

Lemma print_tools_requests (items : list json) :
  requests_of (fst (TestMcp.print_tools items)) = [].
Proof.
  induction items as [|x items IH]; [reflexivity|].
  cbn [TestMcp.print_tools].
  destruct (py_getitem x "name"); [|reflexivity].
  destruct (py_getitem x "description"); [|reflexivity].
  cbn [fst]. exact IH.
Qed.

Lemma list_tools_requests (status : Z) (payload : parsed) :
  requests_of (fst (TestMcp.list_tools status payload)) = [].
Proof.
  unfold TestMcp.list_tools. destruct (Z.eqb status 200); [|reflexivity].
  destruct payload as [v|m]; [|reflexivity].
  destruct (py_get v "tools" (JList [])) as [tools|e]; [|reflexivity].
  destruct (TestMcp.py_len tools); [|reflexivity].
  destruct (py_iter tools) as [items|e]; [|reflexivity].
  cbn [fst]. rewrite requests_of_app, print_tools_requests. reflexivity.
Qed.

Lemma test_tools_requests (net : TestMcp.get_request -> TestMcp.get_outcome)
    (base_url : string) :
  requests_of (TestMcp.test_tools net base_url) = [tools_request base_url].
Proof.
  unfold TestMcp.test_tools. fold (tools_request base_url).
  cbn [requests_of flat_map app]. f_equal.
  destruct (net (tools_request base_url)) as [status p|k m]; [|reflexivity].
  pose proof (list_tools_requests status p) as H.
  destruct (TestMcp.list_tools status p) as [out [u|e]]; cbn [fst] in H.
  - exact H.
  - fold (requests_of (out ++ [TestMcp.PrintedError "❌ Error checking API tools: " e])).
    rewrite requests_of_app, H. reflexivity.
Qed.

Lemma test_sse_requests (net : TestMcp.get_request -> TestMcp.get_outcome)
    (base_url : string) :
  requests_of (TestMcp.test_sse net base_url) = [sse_request base_url].
Proof.
  unfold TestMcp.test_sse. fold (sse_request base_url).
  destruct (net (sse_request base_url)) as [status p|[| |] m]; try reflexivity.
  destruct (Z.eqb status 200); reflexivity.
Qed.

(** X15: [test_mcp_server] requests the home page first; when it does not
    answer 200 nothing else is requested, and when it does the test goes on
    to exactly two more requests, the tool listing and then the SSE endpoint
    (streamed, with a timeout of 5), whatever they answer. *)
Theorem smoke_test_requests (net : TestMcp.get_request -> TestMcp.get_outcome)
    (base_url : string) :
  requests_of (fst (TestMcp.test_mcp_server net base_url))
  = match net (home_request base_url) with
    | TestMcp.Got 200 _ =>
        [home_request base_url; tools_request base_url; sse_request base_url]
    | _ => [home_request base_url]
    end.
Proof.
  unfold TestMcp.test_mcp_server. fold (home_request base_url).
  destruct (net (home_request base_url)) as [status p|[| |] m]; try reflexivity.
  destruct (Z.eqb_spec status 200) as [->|Hne].
  - cbn [fst]. rewrite !requests_of_app, test_tools_requests, test_sse_requests.
    reflexivity.
  - cbn [fst]. destruct status as [|[q|q|]|q]; try reflexivity;
      repeat (destruct q as [q|q|]; try reflexivity).
    now elim Hne.
Qed.

(** X16: run against the listing that [get_tools] serves, the second test
    finds five tools and prints one line per tool, with the name and the
    description of each: the keys it reads are the keys the server
    writes. *)
Theorem smoke_test_lists_the_five_tools (net : TestMcp.get_request -> TestMcp.get_outcome)
    (base_url : string) :
  net (tools_request base_url) = TestMcp.Got 200 (Parsed get_tools) ->
  TestMcp.test_tools net base_url
  = [TestMcp.Requested (tools_request base_url);
     TestMcp.Printed "✅ Found 5 tools available";
     TestMcp.Printed (LF ++ "📋 Available Tools:");
     TestMcp.Printed "  • analyze_transaction: Analyze a financial transaction for compliance issues.";
     TestMcp.Printed "  • verify_customer_kyc: Verify Know Your Customer (KYC) compliance for a specific customer.";
     TestMcp.Printed "  • analyze_communication: Analyze customer communication for compliance issues.";
     TestMcp.Printed "  • get_regulatory_updates: Get the latest regulatory updates and changes relevant to financial compliance.";
     TestMcp.Printed "  • generate_compliance_report: Generate a compliance report for a specific entity."].
Proof.
  intros H. unfold TestMcp.test_tools. fold (tools_request base_url). rewrite H.
  reflexivity.
Qed.

Lemma smoke_test_lists_the_five_tools_witness :
  List.length (TestMcp.test_tools network_listing "http://localhost:8080") = 8.
Proof.
  rewrite (smoke_test_lists_the_five_tools network_listing "http://localhost:8080" eq_refl).
  reflexivity.
Defined.

(** X17: [main] returns the exit status 0 exactly when the home page of
    [http://host:port] answers 200, and then ends on the integration notice;
    a different status or a connection error gives 1, after the line on
    failed tests; any other exception of the first request escapes [main],
    with nothing printed after the request. *)
Theorem main_exit_status (net : TestMcp.get_request -> TestMcp.get_outcome)
    (t : datetime) (args : TestMcp.arguments) :
  let url := "http://" ++ TestMcp.host args ++ ":" ++ decimal (TestMcp.port args) in
  let run := TestMcp.main net t args in
  (snd run = TestMcp.Returned 0%Z <-> exists p, net (home_request url) = TestMcp.Got 200 p)
  /\ (forall p, net (home_request url) = TestMcp.Got 200 p ->
      last (fst run) (TestMcp.Printed "") = TestMcp.Printed (TestMcp.repeat_string "-" 60))
  /\ (forall status p,
         net (home_request url) = TestMcp.Got status p -> status <> 200%Z ->
         snd run = TestMcp.Returned 1%Z
         /\ last (fst run) (TestMcp.Printed "") = TestMcp.Printed
              (LF ++ "❌ Some tests failed. Please check the server logs for more information."))
  /\ (forall m,
         net (home_request url) = TestMcp.Failed TestMcp.ConnectionError m ->
         snd run = TestMcp.Returned 1%Z
         /\ last (fst run) (TestMcp.Printed "") = TestMcp.Printed
              (LF ++ "❌ Some tests failed. Please check the server logs for more information."))
  /\ (forall kind m,
         net (home_request url) = TestMcp.Failed kind m ->
         kind <> TestMcp.ConnectionError ->
         snd run = TestMcp.Escaped kind m
         /\ last (fst run) (TestMcp.Printed "") = TestMcp.Requested (home_request url)).
Proof.
  intros url run. unfold run, TestMcp.main, TestMcp.test_mcp_server.
  fold url. fold (home_request url).
  destruct (net (home_request url)) as [status p|kind m].
  - destruct (Z.eqb_spec status 200) as [->|Hne]; cbn [fst snd].
    + split; [split; [intros _; now exists p | reflexivity]|].
      split; [intros _ _; last_line|].
      split; [intros status' p' H Hneq; inversion H; now elim Hneq|].
      split; [intros m' H; discriminate H | intros kind' m' H; discriminate H].
    + split; [split; [discriminate | intros [p' H]; inversion H; now elim Hne]|].
      split; [intros p' H; inversion H; now elim Hne|].
      split; [intros status' p' _ _; split; [reflexivity | last_line]|].
      split; [intros m' H; discriminate H | intros kind' m' H; discriminate H].
  - split; [split; [destruct kind; discriminate | intros [p' H]; discriminate H]|].
    split; [intros p' H; discriminate H|].
    split; [intros status' p' H; discriminate H|].
    split.
    + intros m' H. inversion H; subst. cbn [fst snd]. split; [reflexivity | last_line].
    + intros kind' m' H Hk. inversion H; subst.
      destruct kind'; [now elim Hk| |]; cbn [fst snd]; (split; [reflexivity | last_line]).
Qed.

Lemma main_exit_status_witness :
  snd (TestMcp.main network_refused sample_clock TestMcp.default_arguments)
  = TestMcp.Returned 1%Z
  /\ snd (TestMcp.main network_timeout sample_clock TestMcp.default_arguments)
     = TestMcp.Escaped TestMcp.ReadTimeout "Read timed out."
  /\ snd (TestMcp.main network_home_only sample_clock TestMcp.default_arguments)
     = TestMcp.Returned 0%Z.
Proof.
  split; [|split].
  - apply (proj1 (proj2 (proj2 (proj2 (main_exit_status network_refused sample_clock
                                         TestMcp.default_arguments))))
             "Connection refused" eq_refl).
  - refine (proj1 (proj2 (proj2 (proj2 (proj2 (main_exit_status network_timeout sample_clock
                                                 TestMcp.default_arguments))))
                     TestMcp.ReadTimeout "Read timed out." eq_refl _)).
    discriminate.
  - apply (proj1 (main_exit_status network_home_only sample_clock
                    TestMcp.default_arguments)).
    eexists. reflexivity.
Defined.
